(** * Excavator simulator: joint limits, mass distribution, ground contact,
    collision ledger, input merging and tread propulsion.

  Shallow embedding of [Excavator.ts] and of [handleControls] in [main.ts].

  Numbers.  A JavaScript [number] is modelled as an exact rational [Q]:
  every arithmetic operation of the source is the corresponding exact
  operation, and rounding of binary64 values is not modelled.  Equality of
  numbers ([===]) is [Qeq] (written [==]), decided by [Qeq_bool].
  Timestamps ([Date.now()], integral milliseconds) are [Z].

  Objects.  The class [Excavator] is a record; a method that mutates
  [this] is a function from the record to the updated record.  The
  [Map<string, CollisionData>] is a [gmap string CollisionData]. *)

From stdpp Require Import gmap strings.
From Stdlib Require Import QArith Qminmax Qabs Lqa.

Local Open Scope Q_scope.

(** ** Number helpers: [Math.max], [Math.min], [Math.abs], [THREE.MathUtils.clamp] *)

Module MathUtils.

Definition Math_max (a b : Q) : Q := Qmax a b.
Definition Math_min (a b : Q) : Q := Qmin a b.
Definition Math_abs (a : Q) : Q := Qabs a.

(** The binary64 value of [Math.PI], which is a dyadic rational. *)
Definition Math_PI : Q := 884279719003555 # 281474976710656.

(** [THREE.MathUtils.clamp(value, min, max)] is
    [Math.max(min, Math.min(max, value))]. *)
Definition clamp (value min max : Q) : Q := Math_max min (Math_min max value).

(** [a < b] on numbers, as a boolean. *)
Definition ltb (a b : Q) : bool := negb (Qle_bool b a).

(** [a !== b] on numbers. *)
Definition neqb (a b : Q) : bool := negb (Qeq_bool a b).

(** Clamping as the specification words it: the value itself when it lies
    in the range, the nearer bound otherwise. *)
Definition clamp_spec (value min max : Q) : Q :=
  if Qlt_le_dec value min then min
  else if Qlt_le_dec max value then max
  else value.

End MathUtils.

(** ** Joint state: the control fields of [Excavator] and their setters *)

Module JointState.
Import MathUtils.

(** The fields "Control state" and "Track limit states" of the class. *)
Record t := mk {
  mainBodyRotation : Q;
  arm1Angle : Q;
  arm2Angle : Q;
  bucketAngle : Q;
  thumbAngle : Q;
  bladeHeight : Q;
  arm1AtLimit : bool;
  arm2AtLimit : bool;
  bucketAtLimit : bool;
  thumbAtLimit : bool;
  bladeAtLimit : bool
}.

(** Field initialisers of the class. *)
Definition initial : t :=
  {| mainBodyRotation := 0;
     arm1Angle := 0;
     arm2Angle := 0.25;
     bucketAngle := 0;
     thumbAngle := -0.2;
     bladeHeight := -0.2;
     arm1AtLimit := false;
     arm2AtLimit := false;
     bucketAtLimit := false;
     thumbAtLimit := false;
     bladeAtLimit := false |}.

(** Control limits. *)
Definition ARM1_MIN_ANGLE : Q := 0.0.
Definition ARM1_MAX_ANGLE : Q := 1.25.
Definition ARM2_MIN_ANGLE : Q := 0.25.
Definition ARM2_MAX_ANGLE : Q := 2.25.
Definition BUCKET_MIN_ANGLE : Q := - Math_PI / 2.
Definition BUCKET_MAX_ANGLE : Q := 0.8.
Definition THUMB_MIN_ANGLE : Q := -3.0.
Definition THUMB_MAX_ANGLE : Q := -0.2.
Definition BLADE_MIN_HEIGHT : Q := -0.5.
Definition BLADE_MAX_HEIGHT : Q := -0.2.

Definition setMainBodyRotation (delta : Q) (s : t) : t :=
  {| mainBodyRotation := mainBodyRotation s + delta;
     arm1Angle := arm1Angle s;
     arm2Angle := arm2Angle s;
     bucketAngle := bucketAngle s;
     thumbAngle := thumbAngle s;
     bladeHeight := bladeHeight s;
     arm1AtLimit := arm1AtLimit s;
     arm2AtLimit := arm2AtLimit s;
     bucketAtLimit := bucketAtLimit s;
     thumbAtLimit := thumbAtLimit s;
     bladeAtLimit := bladeAtLimit s |}.

Definition setArm1Angle (delta : Q) (s : t) : t :=
  let oldAngle := arm1Angle s in
  let newAngle := clamp (arm1Angle s + delta) ARM1_MIN_ANGLE ARM1_MAX_ANGLE in
  {| mainBodyRotation := mainBodyRotation s;
     arm1Angle := newAngle;
     arm2Angle := arm2Angle s;
     bucketAngle := bucketAngle s;
     thumbAngle := thumbAngle s;
     bladeHeight := bladeHeight s;
     arm1AtLimit := neqb delta 0 && Qeq_bool newAngle oldAngle;
     arm2AtLimit := arm2AtLimit s;
     bucketAtLimit := bucketAtLimit s;
     thumbAtLimit := thumbAtLimit s;
     bladeAtLimit := bladeAtLimit s |}.

Definition setArm2Angle (delta : Q) (s : t) : t :=
  let oldAngle := arm2Angle s in
  let newAngle := clamp (arm2Angle s + delta) ARM2_MIN_ANGLE ARM2_MAX_ANGLE in
  {| mainBodyRotation := mainBodyRotation s;
     arm1Angle := arm1Angle s;
     arm2Angle := newAngle;
     bucketAngle := bucketAngle s;
     thumbAngle := thumbAngle s;
     bladeHeight := bladeHeight s;
     arm1AtLimit := arm1AtLimit s;
     arm2AtLimit := neqb delta 0 && Qeq_bool newAngle oldAngle;
     bucketAtLimit := bucketAtLimit s;
     thumbAtLimit := thumbAtLimit s;
     bladeAtLimit := bladeAtLimit s |}.

Definition setBucketAngle (delta : Q) (s : t) : t :=
  let oldAngle := bucketAngle s in
  let newAngle :=
    clamp (bucketAngle s + delta) BUCKET_MIN_ANGLE BUCKET_MAX_ANGLE in
  {| mainBodyRotation := mainBodyRotation s;
     arm1Angle := arm1Angle s;
     arm2Angle := arm2Angle s;
     bucketAngle := newAngle;
     thumbAngle := thumbAngle s;
     bladeHeight := bladeHeight s;
     arm1AtLimit := arm1AtLimit s;
     arm2AtLimit := arm2AtLimit s;
     bucketAtLimit := neqb delta 0 && Qeq_bool newAngle oldAngle;
     thumbAtLimit := thumbAtLimit s;
     bladeAtLimit := bladeAtLimit s |}.

Definition setThumbAngle (delta : Q) (s : t) : t :=
  let oldAngle := thumbAngle s in
  let newAngle :=
    clamp (thumbAngle s + delta) THUMB_MIN_ANGLE THUMB_MAX_ANGLE in
  {| mainBodyRotation := mainBodyRotation s;
     arm1Angle := arm1Angle s;
     arm2Angle := arm2Angle s;
     bucketAngle := bucketAngle s;
     thumbAngle := newAngle;
     bladeHeight := bladeHeight s;
     arm1AtLimit := arm1AtLimit s;
     arm2AtLimit := arm2AtLimit s;
     bucketAtLimit := bucketAtLimit s;
     thumbAtLimit := neqb delta 0 && Qeq_bool newAngle oldAngle;
     bladeAtLimit := bladeAtLimit s |}.

Definition setBladeHeight (delta : Q) (s : t) : t :=
  let oldHeight := bladeHeight s in
  let newHeight :=
    clamp (bladeHeight s + delta) BLADE_MIN_HEIGHT BLADE_MAX_HEIGHT in
  {| mainBodyRotation := mainBodyRotation s;
     arm1Angle := arm1Angle s;
     arm2Angle := arm2Angle s;
     bucketAngle := bucketAngle s;
     thumbAngle := thumbAngle s;
     bladeHeight := newHeight;
     arm1AtLimit := arm1AtLimit s;
     arm2AtLimit := arm2AtLimit s;
     bucketAtLimit := bucketAtLimit s;
     thumbAtLimit := thumbAtLimit s;
     bladeAtLimit := neqb delta 0 && Qeq_bool newHeight oldHeight |}.

(** The five joints that have a limit, as an index over the five setters. *)
Inductive Joint := Arm1 | Arm2 | Bucket | Thumb | Blade.

Definition jointMin (j : Joint) : Q :=
  match j with
  | Arm1 => ARM1_MIN_ANGLE
  | Arm2 => ARM2_MIN_ANGLE
  | Bucket => BUCKET_MIN_ANGLE
  | Thumb => THUMB_MIN_ANGLE
  | Blade => BLADE_MIN_HEIGHT
  end.

Definition jointMax (j : Joint) : Q :=
  match j with
  | Arm1 => ARM1_MAX_ANGLE
  | Arm2 => ARM2_MAX_ANGLE
  | Bucket => BUCKET_MAX_ANGLE
  | Thumb => THUMB_MAX_ANGLE
  | Blade => BLADE_MAX_HEIGHT
  end.

Definition jointValue (j : Joint) (s : t) : Q :=
  match j with
  | Arm1 => arm1Angle s
  | Arm2 => arm2Angle s
  | Bucket => bucketAngle s
  | Thumb => thumbAngle s
  | Blade => bladeHeight s
  end.

Definition jointAtLimit (j : Joint) (s : t) : bool :=
  match j with
  | Arm1 => arm1AtLimit s
  | Arm2 => arm2AtLimit s
  | Bucket => bucketAtLimit s
  | Thumb => thumbAtLimit s
  | Blade => bladeAtLimit s
  end.

Definition jointSetter (j : Joint) : Q -> t -> t :=
  match j with
  | Arm1 => setArm1Angle
  | Arm2 => setArm2Angle
  | Bucket => setBucketAngle
  | Thumb => setThumbAngle
  | Blade => setBladeHeight
  end.

Definition inRange (j : Joint) (s : t) : Prop :=
  jointMin j <= jointValue j s <= jointMax j.

(** A call of one of the six public setters. *)
Inductive Call :=
| CallYaw (delta : Q)
| CallJoint (j : Joint) (delta : Q).

Definition call (c : Call) (s : t) : t :=
  match c with
  | CallYaw delta => setMainBodyRotation delta s
  | CallJoint j delta => jointSetter j delta s
  end.

(** The calls of a sequence, applied in order. *)
Definition run (cs : list Call) (s : t) : t := fold_left (fun s c => call c s) cs s.

(** Sum of the yaw deltas of a sequence of calls. *)
Fixpoint yawSum (cs : list Call) : Q :=
  match cs with
  | [] => 0
  | CallYaw delta :: cs => delta + yawSum cs
  | CallJoint _ _ :: cs => yawSum cs
  end.

End JointState.

(** ** [CANNON.Vec3] and [CANNON.Quaternion]

    The vector operations of the physics library that the source calls.
    Each returns the vector the library writes into its target. *)

Module Vec3.

Record t := mk { x : Q; y : Q; z : Q }.

Definition zero : t := mk 0 0 0.

Definition vadd (a v : t) : t := mk (x a + x v) (y a + y v) (z a + z v).

Definition vsub (a v : t) : t := mk (x a - x v) (y a - y v) (z a - z v).

Definition scale (a : t) (scalar : Q) : t :=
  mk (x a * scalar) (y a * scalar) (z a * scalar).

(** [a.negate()] writes the opposite vector into a fresh target and leaves
    [a] as it is. *)
Definition negate (a : t) : t := mk (- x a) (- y a) (- z a).

Definition cross (a v : t) : t :=
  mk (y a * z v - z a * y v) (z a * x v - x a * z v) (x a * y v - y a * x v).

Definition dot (a v : t) : Q := x a * x v + y a * y v + z a * z v.

Definition lengthSquared (a : t) : Q := dot a a.

(** Component-wise equality of numbers. *)
Definition eqv (a b : t) : Prop := x a == x b /\ y a == y b /\ z a == z b.

End Vec3.

Module Quaternion.

Record t := mk { x : Q; y : Q; z : Q; w : Q }.

Definition identity : t := mk 0 0 0 1.

(** Squared norm; 1 for an orientation. *)
Definition normSquared (q : t) : Q := x q * x q + y q * y q + z q * z q + w q * w q.

(** [q.vmult(v, target)]: rotates [v] by [q]. *)
Definition vmult (q : t) (v : Vec3.t) : Vec3.t :=
  let vx := Vec3.x v in
  let vy := Vec3.y v in
  let vz := Vec3.z v in
  let qx := x q in
  let qy := y q in
  let qz := z q in
  let qw := w q in
  let ix := qw * vx + qy * vz - qz * vy in
  let iy := qw * vy + qz * vx - qx * vz in
  let iz := qw * vz + qx * vy - qy * vx in
  let iw := - qx * vx - qy * vy - qz * vz in
  Vec3.mk (ix * qw + iw * - qx + iy * - qz - iz * - qy)
          (iy * qw + iw * - qy + iz * - qx - ix * - qz)
          (iz * qw + iw * - qz + ix * - qy - iy * - qx).

End Quaternion.

(** ** [CANNON.Body]: the fields and methods the source uses *)

Module Body.

Inductive BodyType := DYNAMIC | STATIC | KINEMATIC.

Record t := mk {
  mass : Q;
  type : BodyType;
  halfExtents : Vec3.t;   (* shapes[0], always a box here *)
  position : Vec3.t;
  quaternion : Quaternion.t;
  velocity : Vec3.t;
  angularVelocity : Vec3.t;
  force : Vec3.t;
  torque : Vec3.t
}.

(** [new CANNON.Body({ mass, position, shape, type })]: a body without a
    [type] option is static when its mass is not positive and dynamic
    otherwise; it starts at rest with the identity orientation. *)
Definition create (mass : Q) (position : Vec3.t) (shape : Vec3.t)
    (type : option BodyType) : t :=
  {| mass := mass;
     type := match type with
             | Some ty => ty
             | None => if Qle_bool mass 0 then STATIC else DYNAMIC
             end;
     halfExtents := shape;
     position := position;
     quaternion := Quaternion.identity;
     velocity := Vec3.zero;
     angularVelocity := Vec3.zero;
     force := Vec3.zero;
     torque := Vec3.zero |}.

(** [body.applyForce(force, relativePoint)]: ignored unless the body is
    dynamic; adds the force, and the torque it produces at the point, to the
    accumulators.  (Bodies never sleep: the world is created without
    [allowSleep].) *)
Definition applyForce (f relativePoint : Vec3.t) (b : t) : t :=
  match type b with
  | DYNAMIC =>
      let rotForce := Vec3.cross relativePoint f in
      {| mass := mass b;
         type := type b;
         halfExtents := halfExtents b;
         position := position b;
         quaternion := quaternion b;
         velocity := velocity b;
         angularVelocity := angularVelocity b;
         force := Vec3.vadd (force b) f;
         torque := Vec3.vadd (torque b) rotForce |}
  | _ => b
  end.

(** [body.applyTorque(torque)]. *)
Definition applyTorque (tq : Vec3.t) (b : t) : t :=
  match type b with
  | DYNAMIC =>
      {| mass := mass b;
         type := type b;
         halfExtents := halfExtents b;
         position := position b;
         quaternion := quaternion b;
         velocity := velocity b;
         angularVelocity := angularVelocity b;
         force := force b;
         torque := Vec3.vadd (torque b) tq |}
  | _ => b
  end.

End Body.

(** ** The [Excavator] class *)

Module Excavator.
Import MathUtils.

(** The dimension constants that [createPhysics] reads. *)
Record Dimensions := mkDimensions {
  BASE_WIDTH : Q;
  BASE_LENGTH : Q;
  BASE_HEIGHT : Q;
  TREAD_WIDTH : Q;
  TREAD_HEIGHT : Q;
  BLADE_WIDTH : Q;
  BLADE_HEIGHT : Q;
  ARM1_WIDTH : Q;
  ARM1_LENGTH : Q;
  ARM2_WIDTH : Q;
  ARM2_LENGTH : Q;
  BUCKET_SIZE : Q;
  BLADE_FORWARD_OFFSET : Q;
  BODY_BASE_WIDTH_MULT : Q;
  BODY_BASE_HEIGHT_MULT : Q;
  BODY_BASE_LENGTH_MULT : Q;
  BUCKET_HEIGHT_MULT : Q;
  THUMB_WIDTH : Q;
  THUMB_LENGTH : Q;
  THUMB_DEPTH : Q
}.

(** The values the class declares. *)
Definition DIMENSIONS : Dimensions :=
  {| BASE_WIDTH := 1.0;
     BASE_LENGTH := 2.0;
     BASE_HEIGHT := 0.2;
     TREAD_WIDTH := 0.25;
     TREAD_HEIGHT := 0.4;
     BLADE_WIDTH := 1.6;
     BLADE_HEIGHT := 0.4;
     ARM1_WIDTH := 0.3;
     ARM1_LENGTH := 2.8;
     ARM2_WIDTH := 0.2;
     ARM2_LENGTH := 1.5;
     BUCKET_SIZE := 0.5;
     BLADE_FORWARD_OFFSET := 0.1;
     BODY_BASE_WIDTH_MULT := 1.4;
     BODY_BASE_HEIGHT_MULT := 1.0;
     BODY_BASE_LENGTH_MULT := 0.8;
     BUCKET_HEIGHT_MULT := 0.8;
     THUMB_WIDTH := 0.3;
     THUMB_LENGTH := 0.8;
     THUMB_DEPTH := 0.1 |}.

(** Physics collision force settings. *)
Definition COLLISION_FORCE_MULTIPLIER : Q := 1000.
Definition PENETRATION_FORCE_MULTIPLIER : Q := 2.

(** The eight physics bodies: the chassis and the seven proxy parts. *)
Record Physics := mkPhysics {
  physicsBody : Body.t;
  bladeBody : Body.t;
  mainBodyPhysics : Body.t;
  arm1Part1Body : Body.t;
  arm1Part2Body : Body.t;
  arm2Body : Body.t;
  bucketBody : Body.t;
  thumbBody : Body.t
}.

(** Volumes computed at the head of [createPhysics]. *)
Definition chassisVolume (d : Dimensions) : Q :=
  (BASE_WIDTH d + TREAD_WIDTH d * 2) * (BASE_HEIGHT d + TREAD_HEIGHT d)
  * BASE_LENGTH d.
Definition bladeVolume (d : Dimensions) : Q :=
  BLADE_WIDTH d * BLADE_HEIGHT d * BLADE_FORWARD_OFFSET d.
Definition mainBodyVolume (d : Dimensions) : Q :=
  (BASE_WIDTH d * BODY_BASE_WIDTH_MULT d)
  * (BASE_WIDTH d * BODY_BASE_HEIGHT_MULT d)
  * (BASE_LENGTH d * BODY_BASE_LENGTH_MULT d).
Definition arm1SegmentLength (d : Dimensions) : Q := ARM1_LENGTH d / 2.
Definition arm1Part1Volume (d : Dimensions) : Q :=
  ARM1_WIDTH d * arm1SegmentLength d * ARM1_WIDTH d.
Definition arm1Part2Volume (d : Dimensions) : Q :=
  ARM1_WIDTH d * arm1SegmentLength d * ARM1_WIDTH d.
Definition arm2Volume (d : Dimensions) : Q :=
  ARM2_WIDTH d * ARM2_LENGTH d * ARM2_WIDTH d.
Definition bucketVolume (d : Dimensions) : Q :=
  BUCKET_SIZE d * (BUCKET_SIZE d * BUCKET_HEIGHT_MULT d) * BUCKET_SIZE d.
Definition thumbVolume (d : Dimensions) : Q :=
  THUMB_WIDTH d * THUMB_LENGTH d * THUMB_DEPTH d.

Definition totalVolume (d : Dimensions) : Q :=
  chassisVolume d + bladeVolume d + mainBodyVolume d + arm1Part1Volume d
  + arm1Part2Volume d + arm2Volume d + bucketVolume d + thumbVolume d.

Definition totalMass : Q := 907.

(** [createPhysics]: the masses are shares of [totalMass] by volume; the
    chassis is the one body without a [type] option, the seven proxies are
    kinematic and keep the default position. *)
Definition createPhysics (d : Dimensions) (groupPosition : Vec3.t) : Physics :=
  let chassisMass := (chassisVolume d / totalVolume d) * totalMass in
  let bladeMass := (bladeVolume d / totalVolume d) * totalMass in
  let mainBodyMass := (mainBodyVolume d / totalVolume d) * totalMass in
  let arm1Part1Mass := (arm1Part1Volume d / totalVolume d) * totalMass in
  let arm1Part2Mass := (arm1Part2Volume d / totalVolume d) * totalMass in
  let arm2Mass := (arm2Volume d / totalVolume d) * totalMass in
  let bucketMass := (bucketVolume d / totalVolume d) * totalMass in
  let thumbMass := (thumbVolume d / totalVolume d) * totalMass in
  {| physicsBody :=
       Body.create chassisMass
         (Vec3.mk (Vec3.x groupPosition)
                  (Vec3.y groupPosition + (BASE_HEIGHT d + TREAD_HEIGHT d) / 2)
                  (Vec3.z groupPosition))
         (Vec3.mk ((BASE_WIDTH d + TREAD_WIDTH d * 2) / 2)
                  ((BASE_HEIGHT d + TREAD_HEIGHT d) / 2)
                  (BASE_LENGTH d / 2))
         None;
     bladeBody :=
       Body.create bladeMass Vec3.zero
         (Vec3.mk (BLADE_WIDTH d / 2) (BLADE_HEIGHT d / 2)
                  (BLADE_FORWARD_OFFSET d / 2))
         (Some Body.KINEMATIC);
     mainBodyPhysics :=
       Body.create mainBodyMass Vec3.zero
         (Vec3.mk (BASE_WIDTH d * BODY_BASE_WIDTH_MULT d / 2)
                  (BASE_WIDTH d * BODY_BASE_HEIGHT_MULT d / 2)
                  (BASE_LENGTH d * BODY_BASE_LENGTH_MULT d / 2))
         (Some Body.KINEMATIC);
     arm1Part1Body :=
       Body.create arm1Part1Mass Vec3.zero
         (Vec3.mk (ARM1_WIDTH d / 2) (arm1SegmentLength d / 2)
                  (ARM1_WIDTH d / 2))
         (Some Body.KINEMATIC);
     arm1Part2Body :=
       Body.create arm1Part2Mass Vec3.zero
         (Vec3.mk (ARM1_WIDTH d / 2) (arm1SegmentLength d / 2)
                  (ARM1_WIDTH d / 2))
         (Some Body.KINEMATIC);
     arm2Body :=
       Body.create arm2Mass Vec3.zero
         (Vec3.mk (ARM2_WIDTH d / 2) (ARM2_LENGTH d / 2) (ARM2_WIDTH d / 2))
         (Some Body.KINEMATIC);
     bucketBody :=
       Body.create bucketMass Vec3.zero
         (Vec3.mk (BUCKET_SIZE d / 2)
                  (BUCKET_SIZE d * BUCKET_HEIGHT_MULT d / 2)
                  (BUCKET_SIZE d / 2))
         (Some Body.KINEMATIC);
     thumbBody :=
       Body.create thumbMass Vec3.zero
         (Vec3.mk (THUMB_WIDTH d / 2) (THUMB_LENGTH d / 2) (THUMB_DEPTH d / 2))
         (Some Body.KINEMATIC) |}.

(** The masses of the seven proxy parts, added up. *)
Definition proxyMassSum (p : Physics) : Q :=
  Body.mass (bladeBody p) + Body.mass (mainBodyPhysics p)
  + Body.mass (arm1Part1Body p) + Body.mass (arm1Part2Body p)
  + Body.mass (arm2Body p) + Body.mass (bucketBody p)
  + Body.mass (thumbBody p).

(** [interface CollisionData]. *)
Record CollisionData := mkCollisionData {
  partName : string;
  timestamp : Z;
  contactNormal : Vec3.t;
  appliedForce : Vec3.t;
  isActive : bool
}.

(** "Physics debug data": the collision map and its two counters. *)
Record Ledger := mkLedger {
  collisionEvents : gmap string CollisionData;
  totalCollisions : Z;
  frameCollisions : Z
}.

Record t := mk {
  joints : JointState.t;
  leftTreadForce : Q;
  rightTreadForce : Q;
  physics : Physics;
  ledger : Ledger
}.

(** [new Excavator(world, position)]. *)
Definition create (position : Vec3.t) : t :=
  {| joints := JointState.initial;
     leftTreadForce := 0;
     rightTreadForce := 0;
     physics := createPhysics DIMENSIONS position;
     ledger := {| collisionEvents := ∅;
                  totalCollisions := 0;
                  frameCollisions := 0 |} |}.

(** Assignment to the fields of [this.physicsBody]. *)
Definition withPhysicsBody (f : Body.t -> Body.t) (e : t) : t :=
  let p := physics e in
  {| joints := joints e;
     leftTreadForce := leftTreadForce e;
     rightTreadForce := rightTreadForce e;
     physics := {| physicsBody := f (physicsBody p);
                   bladeBody := bladeBody p;
                   mainBodyPhysics := mainBodyPhysics p;
                   arm1Part1Body := arm1Part1Body p;
                   arm1Part2Body := arm1Part2Body p;
                   arm2Body := arm2Body p;
                   bucketBody := bucketBody p;
                   thumbBody := thumbBody p |};
     ledger := ledger e |}.

Definition withLedger (f : Ledger -> Ledger) (e : t) : t :=
  {| joints := joints e;
     leftTreadForce := leftTreadForce e;
     rightTreadForce := rightTreadForce e;
     physics := physics e;
     ledger := f (ledger e) |}.

Definition withJoints (f : JointState.t -> JointState.t) (e : t) : t :=
  {| joints := f (joints e);
     leftTreadForce := leftTreadForce e;
     rightTreadForce := rightTreadForce e;
     physics := physics e;
     ledger := ledger e |}.

(** The three statements that track a contact:
    [totalCollisions++; frameCollisions++; collisionEvents.set(name, ...)]. *)
Definition trackCollision (now : Z) (name : string) (normal f : Vec3.t)
    (l : Ledger) : Ledger :=
  {| collisionEvents :=
       <[name := {| partName := name;
                    timestamp := now;
                    contactNormal := normal;
                    appliedForce := f;
                    isActive := true |}]> (collisionEvents l);
     totalCollisions := (totalCollisions l + 1)%Z;
     frameCollisions := (frameCollisions l + 1)%Z |}.

(** The seven pairs of [kinematicBodies]. *)
Definition kinematicBodies (p : Physics) : list (Body.t * string) :=
  [ (bladeBody p, "Blade"%string);
    (mainBodyPhysics p, "Main Body"%string);
    (arm1Part1Body p, "Arm 1 Seg 1"%string);
    (arm1Part2Body p, "Arm 1 Seg 2"%string);
    (arm2Body p, "Arm 2"%string);
    (bucketBody p, "Bucket"%string);
    (thumbBody p, "Thumb"%string) ].

(** The height the detector tests, which the source calls the lowest point
    of the body: the world height of the centre of the box's -Y face, rotated
    by the body's orientation. *)
Definition bottomY (body : Body.t) : Q :=
  let halfExtents := Body.halfExtents body in
  let bottomOffset :=
    Quaternion.vmult (Body.quaternion body)
      (Vec3.mk 0 (- Vec3.y halfExtents) 0) in
  Vec3.y (Body.position body) + Vec3.y bottomOffset.

Definition forceMagnitude (penetration : Q) : Q :=
  COLLISION_FORCE_MULTIPLIER * (1 + penetration * PENETRATION_FORCE_MULTIPLIER).

(** The body of the [forEach] callback of [checkKinematicCollisions];
    [now] is what [Date.now()] returns. *)
Definition checkKinematicBody (now : Z) (e : t) (entry : Body.t * string) : t :=
  let '(body, name) := entry in
  if ltb (bottomY body) 0.01 then
    let penetration := Math_abs (bottomY body) in
    let contactNormal := Vec3.mk 0 1 0 in
    let f := Vec3.scale contactNormal (forceMagnitude penetration) in
    let relativePos :=
      Vec3.vsub (Body.position body) (Body.position (physicsBody (physics e))) in
    withLedger (trackCollision now name contactNormal f)
      (withPhysicsBody (Body.applyForce f relativePos) e)
  else e.

(** One iteration of the pass: each iteration that tracks a contact reads
    [Date.now()] for itself; [now name] is the reading in the iteration of
    the part called [name]. *)
Definition checkKinematicEntry (now : string -> Z) (e : t)
    (entry : Body.t * string) : t :=
  checkKinematicBody (now entry.2) e entry.

Definition checkKinematicCollisions (now : string -> Z) (e : t) : t :=
  fold_left (checkKinematicEntry now) (kinematicBodies (physics e)) e.

(** The eight corners of a box with half-extents [h], in body coordinates. *)
Definition boxCorners (h : Vec3.t) : list Vec3.t :=
  [ Vec3.mk (- Vec3.x h) (- Vec3.y h) (- Vec3.z h);
    Vec3.mk (- Vec3.x h) (- Vec3.y h) (Vec3.z h);
    Vec3.mk (Vec3.x h) (- Vec3.y h) (- Vec3.z h);
    Vec3.mk (Vec3.x h) (- Vec3.y h) (Vec3.z h);
    Vec3.mk (- Vec3.x h) (Vec3.y h) (- Vec3.z h);
    Vec3.mk (- Vec3.x h) (Vec3.y h) (Vec3.z h);
    Vec3.mk (Vec3.x h) (Vec3.y h) (- Vec3.z h);
    Vec3.mk (Vec3.x h) (Vec3.y h) (Vec3.z h) ].

(** World height of a point given in body coordinates. *)
Definition worldY (body : Body.t) (local : Vec3.t) : Q :=
  Vec3.y (Body.position body) + Vec3.y (Quaternion.vmult (Body.quaternion body) local).

(** The world-space lowest point of a box body, as the specification words
    it: the least world height among its eight corners. *)
Definition lowestPointY (body : Body.t) : Q :=
  foldr (fun corner acc => Qmin (worldY body corner) acc)
        (worldY body (Vec3.mk (Vec3.x (Body.halfExtents body))
                              (Vec3.y (Body.halfExtents body))
                              (Vec3.z (Body.halfExtents body))))
        (boxCorners (Body.halfExtents body)).

(** Identity of a body in the world, for [contact.bi === partBody]. *)
Inductive BodyRef :=
| Chassis
| Part (name : string)
| Obstacle (n : nat).

(** The fields of a solver contact that the handler reads. *)
Record ContactEquation := mkContact {
  bi : BodyRef;
  bj : BodyRef;
  ni : Vec3.t
}.

Definition BodyRef_eqb (a b : BodyRef) : bool :=
  match a, b with
  | Chassis, Chassis => true
  | Part n, Part m => String.eqb n m
  | Obstacle n, Obstacle m => Nat.eqb n m
  | _, _ => false
  end.

Definition reactionForceMultiplier : Q := 5000.

(** [applyCollisionForce(event, partBody, partName)] of
    [setupCollisionHandlers]; [contact] is [event.contact], absent when the
    event carries none.  In the branch for "part is body B" the source calls
    [contactNormal.negate()] and drops its result, so the normal it goes on
    with is the copy of [contact.ni] in both branches. *)
Definition applyCollisionForce (now : Z) (contact : option ContactEquation)
    (partBody : Body.t) (partName : string) (e : t) : t :=
  match contact with
  | None => e
  | Some contact =>
      let contactNormal :=
        if BodyRef_eqb (bi contact) (Part partName) then ni contact
        else let _ := Vec3.negate (ni contact) in ni contact in
      let f := Vec3.scale contactNormal reactionForceMultiplier in
      let relativePos :=
        Vec3.vsub (Body.position partBody)
                  (Body.position (physicsBody (physics e))) in
      withLedger (trackCollision now partName contactNormal f)
        (withPhysicsBody (Body.applyForce f relativePos) e)
  end.

(** One aged entry of [resetFrameCollisions]. *)
Definition age (now : Z) (data : CollisionData) : CollisionData :=
  if (100 <? now - timestamp data)%Z then
    {| partName := partName data;
       timestamp := timestamp data;
       contactNormal := contactNormal data;
       appliedForce := appliedForce data;
       isActive := false |}
  else data.

Definition resetFrameCollisions (now : Z) (e : t) : t :=
  withLedger (fun l =>
    {| collisionEvents := age now <$> collisionEvents l;
       totalCollisions := totalCollisions l;
       frameCollisions := 0 |}) e.

Definition setTreadForces (leftSpeed rightSpeed : Q) (e : t) : t :=
  {| joints := joints e;
     leftTreadForce := leftSpeed;
     rightTreadForce := rightSpeed;
     physics := physics e;
     ledger := ledger e |}.

Definition forceStrength : Q := 1500.
Definition torqueStrength : Q := 200.

(** [applyTreadForces], as it acts on [this.physicsBody]. *)
Definition treadForcesOnBody (leftSpeed rightSpeed : Q) (b : Body.t) : Body.t :=
  let forward := Quaternion.vmult (Body.quaternion b) (Vec3.mk 0 0 1) in
  let avgSpeed := (leftSpeed + rightSpeed) / 2 in
  let f := Vec3.scale forward (avgSpeed * forceStrength) in
  let b := Body.applyForce f Vec3.zero b in
  let diff := rightSpeed - leftSpeed in
  let tq := Vec3.mk 0 (diff * torqueStrength) 0 in
  Body.applyTorque tq b.

Definition applyTreadForces (leftSpeed rightSpeed : Q) (e : t) : t :=
  withPhysicsBody (treadForcesOnBody leftSpeed rightSpeed) e.

(** The eight bodies [createPhysics] adds to the world, chassis first. *)
Definition allBodies (p : Physics) : list Body.t :=
  physicsBody p :: (kinematicBodies p).*1.


(** All twenty dimension constants are positive. *)
Definition positiveDimensions (d : Dimensions) : Prop :=
  0 < BASE_WIDTH d /\ 0 < BASE_LENGTH d /\ 0 < BASE_HEIGHT d
  /\ 0 < TREAD_WIDTH d /\ 0 < TREAD_HEIGHT d
  /\ 0 < BLADE_WIDTH d /\ 0 < BLADE_HEIGHT d
  /\ 0 < ARM1_WIDTH d /\ 0 < ARM1_LENGTH d
  /\ 0 < ARM2_WIDTH d /\ 0 < ARM2_LENGTH d
  /\ 0 < BUCKET_SIZE d /\ 0 < BLADE_FORWARD_OFFSET d
  /\ 0 < BODY_BASE_WIDTH_MULT d /\ 0 < BODY_BASE_HEIGHT_MULT d
  /\ 0 < BODY_BASE_LENGTH_MULT d /\ 0 < BUCKET_HEIGHT_MULT d
  /\ 0 < THUMB_WIDTH d /\ 0 < THUMB_LENGTH d /\ 0 < THUMB_DEPTH d.

End Excavator.

(** ** [interface GamepadState] *)

Module GamepadState.

Record t := mk {
  leftStickX : Q;
  leftStickY : Q;
  rightStickX : Q;
  rightStickY : Q;
  leftTrigger : Q;
  rightTrigger : Q;
  leftBumper : bool;
  rightBumper : bool;
  dpadUp : bool;
  dpadDown : bool;
  buttonY : bool;
  buttonA : bool
}.

(** [getDefaultState()] of both controllers. *)
Definition getDefaultState : t :=
  {| leftStickX := 0;
     leftStickY := 0;
     rightStickX := 0;
     rightStickY := 0;
     leftTrigger := 0;
     rightTrigger := 0;
     leftBumper := false;
     rightBumper := false;
     dpadUp := false;
     dpadDown := false;
     buttonY := false;
     buttonA := false |}.

End GamepadState.

(** ** [KeyboardController] *)

Module KeyboardController.

(** The fields [state] and [pressedKeys]. *)
Record t := mk {
  state : GamepadState.t;
  pressedKeys : gset string
}.

Definition analogValue : Q := 1.0.

Definition create : t :=
  {| state := GamepadState.getDefaultState; pressedKeys := ∅ |}.

(** [this.pressedKeys.has(key)]. *)
Definition has (key : string) (keys : gset string) : bool :=
  bool_decide (key ∈ keys).

(** The state that [update()] builds from the keys held down: it starts
    from the default state and runs the sixteen tests in order. *)
Definition stateOfKeys (keys : gset string) : GamepadState.t :=
  let leftStickX := 0 in
  let leftStickX := if has "a" keys then analogValue else leftStickX in
  let leftStickX := if has "d" keys then - analogValue else leftStickX in
  let leftStickY := 0 in
  let leftStickY := if has "w" keys then analogValue else leftStickY in
  let leftStickY := if has "s" keys then - analogValue else leftStickY in
  let rightStickX := 0 in
  let rightStickX := if has "arrowup" keys then analogValue else rightStickX in
  let rightStickX :=
    if has "arrowdown" keys then - analogValue else rightStickX in
  let rightStickY := 0 in
  let rightStickY :=
    if has "arrowleft" keys then - analogValue else rightStickY in
  let rightStickY := if has "arrowright" keys then analogValue else rightStickY in
  let leftTrigger := if has "z" keys then 1.0 else 0 in
  let leftBumper := if has "x" keys then true else false in
  let rightTrigger := if has "/" keys then 1.0 else 0 in
  let rightBumper := if has "." keys then true else false in
  let dpadUp := if has "r" keys then true else false in
  let dpadDown := if has "f" keys then true else false in
  let buttonY := if has "t" keys then true else false in
  let buttonA := if has "g" keys then true else false in
  {| GamepadState.leftStickX := leftStickX;
     GamepadState.leftStickY := leftStickY;
     GamepadState.rightStickX := rightStickX;
     GamepadState.rightStickY := rightStickY;
     GamepadState.leftTrigger := leftTrigger;
     GamepadState.rightTrigger := rightTrigger;
     GamepadState.leftBumper := leftBumper;
     GamepadState.rightBumper := rightBumper;
     GamepadState.dpadUp := dpadUp;
     GamepadState.dpadDown := dpadDown;
     GamepadState.buttonY := buttonY;
     GamepadState.buttonA := buttonA |}.

Definition update (c : t) : t :=
  {| state := stateOfKeys (pressedKeys c); pressedKeys := pressedKeys c |}.

Definition getState (c : t) : GamepadState.t := state c.

(** The three listeners; [key] is [e.key.toLowerCase()]. *)
Definition onKeyDown (key : string) (c : t) : t :=
  {| state := state c; pressedKeys := {[key]} ∪ pressedKeys c |}.

Definition onKeyUp (key : string) (c : t) : t :=
  {| state := state c; pressedKeys := pressedKeys c ∖ {[key]} |}.

Definition onBlur (c : t) : t := {| state := state c; pressedKeys := ∅ |}.

End KeyboardController.

(** ** [GamepadController] *)

Module GamepadController.
Import MathUtils.

(** What the source reads of a browser [Gamepad]. *)
Record GamepadButton := mkButton { pressed : bool; value : Q }.

Record Gamepad := mkGamepad {
  axes : list Q;
  buttons : list GamepadButton
}.

Record t := mk {
  gamepad : option Gamepad;
  state : GamepadState.t;
  connected : bool
}.

Definition deadzone : Q := 0.15.

Definition create : t :=
  {| gamepad := None; state := GamepadState.getDefaultState; connected := false |}.

Definition applyDeadzone (value : Q) : Q :=
  if ltb (Math_abs value) deadzone then 0 else value.

(** [gp.axes[i] || 0]: an absent axis reads as 0. *)
Definition axis (gp : Gamepad) (i : nat) : Q := default 0 (axes gp !! i).

(** [gp.buttons[i]?.value || 0] and [gp.buttons[i]?.pressed || false]. *)
Definition buttonValue (gp : Gamepad) (i : nat) : Q :=
  default 0 (value <$> buttons gp !! i).

Definition buttonPressed (gp : Gamepad) (i : nat) : bool :=
  default false (pressed <$> buttons gp !! i).

(** The twelve assignments of [update()] for the gamepad [gp]. *)
Definition stateOfGamepad (gp : Gamepad) : GamepadState.t :=
  {| GamepadState.leftStickX := - applyDeadzone (axis gp 0);
     GamepadState.leftStickY := applyDeadzone (axis gp 1);
     GamepadState.rightStickX := applyDeadzone (axis gp 3);
     GamepadState.rightStickY := applyDeadzone (axis gp 2);
     GamepadState.leftTrigger :=
       if (6 <? length (axes gp))%nat
       then Math_max 0 (axis gp 6 + 1) / 2
       else buttonValue gp 6;
     GamepadState.rightTrigger :=
       if (6 <? length (axes gp))%nat
       then Math_max 0 (axis gp 7 + 1) / 2
       else buttonValue gp 7;
     GamepadState.leftBumper := buttonPressed gp 4;
     GamepadState.rightBumper := buttonPressed gp 5;
     GamepadState.dpadUp := buttonPressed gp 12;
     GamepadState.dpadDown := buttonPressed gp 13;
     GamepadState.buttonY := buttonPressed gp 3;
     GamepadState.buttonA := buttonPressed gp 0 |}.

(** [update()]; [polled] is [navigator.getGamepads()[0]], absent when the
    browser reports none. *)
Definition update (polled : option Gamepad) (c : t) : t :=
  let gamepad :=
    match polled with
    | Some gp => Some gp
    | None => gamepad c
    end in
  match gamepad with
  | None => {| gamepad := gamepad; state := state c; connected := connected c |}
  | Some gp =>
      {| gamepad := gamepad; state := stateOfGamepad gp; connected := connected c |}
  end.

Definition getState (c : t) : GamepadState.t := state c.

Definition isConnected (c : t) : bool := connected c.

(** The listeners of [gamepadconnected] and [gamepaddisconnected]. *)
Definition onConnected (gp : Gamepad) (c : t) : t :=
  {| gamepad := Some gp; state := state c; connected := true |}.

Definition onDisconnected (c : t) : t :=
  {| gamepad := None; state := GamepadState.getDefaultState; connected := false |}.

End GamepadController.

(** ** [ExcavatorSimulator.handleControls] *)

Module ExcavatorSimulator.
Import MathUtils.

(** The merged state: the twelve local constants computed at the head of
    [handleControls] from the states of the two controllers. *)
Definition mergeStates (gamepadState keyboardState : GamepadState.t)
    : GamepadState.t :=
  {| GamepadState.leftStickX :=
       Math_max (-1) (Math_min 1 (GamepadState.leftStickX gamepadState
                                  + GamepadState.leftStickX keyboardState));
     GamepadState.leftStickY :=
       Math_max (-1) (Math_min 1 (GamepadState.leftStickY gamepadState
                                  + GamepadState.leftStickY keyboardState));
     GamepadState.rightStickX :=
       Math_max (-1) (Math_min 1 (GamepadState.rightStickX gamepadState
                                  + GamepadState.rightStickX keyboardState));
     GamepadState.rightStickY :=
       Math_max (-1) (Math_min 1 (GamepadState.rightStickY gamepadState
                                  + GamepadState.rightStickY keyboardState));
     GamepadState.leftTrigger :=
       Math_max (GamepadState.leftTrigger gamepadState)
                (GamepadState.leftTrigger keyboardState);
     GamepadState.rightTrigger :=
       Math_max (GamepadState.rightTrigger gamepadState)
                (GamepadState.rightTrigger keyboardState);
     GamepadState.leftBumper :=
       GamepadState.leftBumper gamepadState
       || GamepadState.leftBumper keyboardState;
     GamepadState.rightBumper :=
       GamepadState.rightBumper gamepadState
       || GamepadState.rightBumper keyboardState;
     GamepadState.dpadUp :=
       GamepadState.dpadUp gamepadState || GamepadState.dpadUp keyboardState;
     GamepadState.dpadDown :=
       GamepadState.dpadDown gamepadState
       || GamepadState.dpadDown keyboardState;
     GamepadState.buttonY :=
       GamepadState.buttonY gamepadState || GamepadState.buttonY keyboardState;
     GamepadState.buttonA :=
       GamepadState.buttonA gamepadState
       || GamepadState.buttonA keyboardState |}.

(** "Tread movement": one side's speed from its trigger and bumper. *)
Definition treadSpeed (trigger : Q) (bumper : bool) : Q :=
  let speed := 0 in
  let speed := if ltb 0 trigger then trigger else speed in
  let speed := if bumper then -1.0 else speed in
  speed.

(** [handleControls(deltaTime)], after both controllers were polled:
    [gamepadState] and [keyboardState] are what their [getState()] return. *)
Definition handleControls (deltaTime : Q)
    (gamepadState keyboardState : GamepadState.t) (e : Excavator.t)
    : Excavator.t :=
  let m := mergeStates gamepadState keyboardState in
  let rotationSpeed := 2.0 * deltaTime in
  let e :=
    Excavator.withJoints
      (JointState.setMainBodyRotation
         (GamepadState.leftStickX m * rotationSpeed)) e in
  let arm2Speed := 1.0 * deltaTime in
  let e :=
    Excavator.withJoints
      (JointState.setArm2Angle (- GamepadState.leftStickY m * arm2Speed)) e in
  let arm1Speed := 1.0 * deltaTime in
  let e :=
    Excavator.withJoints
      (JointState.setArm1Angle (GamepadState.rightStickX m * arm1Speed)) e in
  let bucketSpeed := 1.5 * deltaTime in
  let e :=
    Excavator.withJoints
      (JointState.setBucketAngle
         (- GamepadState.rightStickY m * bucketSpeed)) e in
  let thumbSpeed := 1.0 * deltaTime in
  let thumbDelta :=
    if GamepadState.dpadUp m then - thumbSpeed
    else if GamepadState.dpadDown m then thumbSpeed
    else 0 in
  let e := Excavator.withJoints (JointState.setThumbAngle thumbDelta) e in
  let bladeSpeed := 0.5 * deltaTime in
  let bladeDelta :=
    if GamepadState.buttonY m then - bladeSpeed
    else if GamepadState.buttonA m then bladeSpeed
    else 0 in
  let e := Excavator.withJoints (JointState.setBladeHeight bladeDelta) e in
  let leftSpeed :=
    treadSpeed (GamepadState.leftTrigger m) (GamepadState.leftBumper m) in
  let rightSpeed :=
    treadSpeed (GamepadState.rightTrigger m) (GamepadState.rightBumper m) in
  let e := Excavator.setTreadForces leftSpeed rightSpeed e in
  Excavator.applyTreadForces leftSpeed rightSpeed e.

(** "Camera orbit controls": the six fields the mouse handlers use. *)
Record Camera := mkCamera {
  cameraAngle : Q;
  cameraElevation : Q;
  cameraDistance : Q;
  isDragging : bool;
  lastMouseX : Q;
  lastMouseY : Q
}.

(** Field initialisers of the class. *)
Definition initialCamera : Camera :=
  {| cameraAngle := 0;
     cameraElevation := Math_PI / 6;
     cameraDistance := 8;
     isDragging := false;
     lastMouseX := 0;
     lastMouseY := 0 |}.

(** The events [setupMouseControls] listens to, with the fields of the
    event that the listeners read. *)
Inductive MouseEvent :=
| MouseDown (clientX clientY : Q)
| MouseMove (clientX clientY : Q)
| MouseUp
| MouseLeave
| Wheel (deltaY : Q).

Definition onMouseDown (clientX clientY : Q) (c : Camera) : Camera :=
  {| cameraAngle := cameraAngle c;
     cameraElevation := cameraElevation c;
     cameraDistance := cameraDistance c;
     isDragging := true;
     lastMouseX := clientX;
     lastMouseY := clientY |}.

Definition onMouseMove (clientX clientY : Q) (c : Camera) : Camera :=
  if negb (isDragging c) then c
  else
    let deltaX := clientX - lastMouseX c in
    let deltaY := clientY - lastMouseY c in
    {| cameraAngle := cameraAngle c + deltaX * 0.01;
       cameraElevation :=
         clamp (cameraElevation c + deltaY * 0.01) 0.1 (Math_PI / 2 - 0.1);
       cameraDistance := cameraDistance c;
       isDragging := isDragging c;
       lastMouseX := clientX;
       lastMouseY := clientY |}.

(** The listeners of [mouseup] and of [mouseleave]. *)
Definition onMouseUp (c : Camera) : Camera :=
  {| cameraAngle := cameraAngle c;
     cameraElevation := cameraElevation c;
     cameraDistance := cameraDistance c;
     isDragging := false;
     lastMouseX := lastMouseX c;
     lastMouseY := lastMouseY c |}.

Definition onWheel (deltaY : Q) (c : Camera) : Camera :=
  {| cameraAngle := cameraAngle c;
     cameraElevation := cameraElevation c;
     cameraDistance := clamp (cameraDistance c + deltaY * 0.01) 3 20;
     isDragging := isDragging c;
     lastMouseX := lastMouseX c;
     lastMouseY := lastMouseY c |}.

Definition onMouseEvent (ev : MouseEvent) (c : Camera) : Camera :=
  match ev with
  | MouseDown clientX clientY => onMouseDown clientX clientY c
  | MouseMove clientX clientY => onMouseMove clientX clientY c
  | MouseUp => onMouseUp c
  | MouseLeave => onMouseUp c
  | Wheel deltaY => onWheel deltaY c
  end.

Definition onMouseEvents (evs : list MouseEvent) (c : Camera) : Camera :=
  fold_left (fun c ev => onMouseEvent ev c) evs c.

(** The camera stays inside the limits of the two clamps. *)
Definition cameraInLimits (c : Camera) : Prop :=
  0.1 <= cameraElevation c <= Math_PI / 2 - 0.1
  /\ 3 <= cameraDistance c <= 20.

(** A list of pointer positions as [mousemove] events. *)
Definition mouseMoves (points : list (Q * Q)) : list MouseEvent :=
  map (fun p => MouseMove p.1 p.2) points.

End ExcavatorSimulator.

(** ** The calls that reach the excavator during a session *)

Module Session.

(** One call into the model: the frame-start reset, one iteration or a whole
    pass of the ground detector, a solver collision callback for a part, or
    the control handling of a frame. *)
Inductive Op :=
| ResetFrameCollisions (now : Z)
| CheckKinematicBody (now : Z) (body : Body.t) (name : string)
| CheckKinematicCollisions (now : string -> Z)
| ApplyCollisionForce (now : Z) (contact : option Excavator.ContactEquation)
    (partBody : Body.t) (partName : string)
| HandleControls (deltaTime : Q) (gamepadState keyboardState : GamepadState.t).

Definition step (op : Op) (e : Excavator.t) : Excavator.t :=
  match op with
  | ResetFrameCollisions now => Excavator.resetFrameCollisions now e
  | CheckKinematicBody now body name =>
      Excavator.checkKinematicBody now e (body, name)
  | CheckKinematicCollisions now => Excavator.checkKinematicCollisions now e
  | ApplyCollisionForce now contact partBody partName =>
      Excavator.applyCollisionForce now contact partBody partName e
  | HandleControls deltaTime gamepadState keyboardState =>
      ExcavatorSimulator.handleControls deltaTime gamepadState keyboardState e
  end.

Definition run (ops : list Op) (e : Excavator.t) : Excavator.t :=
  fold_left (fun e op => step op e) ops e.

(** The collision map of an excavator. *)
Definition events (e : Excavator.t) : gmap string Excavator.CollisionData :=
  Excavator.collisionEvents (Excavator.ledger e).

(** The map of [e'] is the map of [e] with the entry of [name] written at
    time [now]: that entry is active and stamped [now], every other entry is
    as it was, and the number of entries is the same when [name] already had
    one. *)
Definition writesEntry (name : string) (now : Z) (e e' : Excavator.t) : Prop :=
  (exists n f,
      events e' !! name = Some (Excavator.mkCollisionData name now n f true))
  /\ (forall k, k <> name -> events e' !! k = events e !! k)
  /\ (is_Some (events e !! name) -> size (events e') = size (events e)).

(** The seven part names of [kinematicBodies] and of the collision
    listeners. *)
Definition partNames : list string :=
  [ "Blade"; "Main Body"; "Arm 1 Seg 1"; "Arm 1 Seg 2"; "Arm 2"; "Bucket";
    "Thumb" ]%string.

(** A call as the source makes it: single detector iterations and solver
    callbacks only ever carry one of the seven part names. *)
Definition namesPart (op : Op) : Prop :=
  match op with
  | CheckKinematicBody _ _ name => name ∈ partNames
  | ApplyCollisionForce _ _ _ partName => partName ∈ partNames
  | _ => True
  end.

(** The parts of a list of detector entries that are below the threshold. *)
Definition penetrating (entries : list (Body.t * string))
    : list (Body.t * string) :=
  filter (fun entry => MathUtils.ltb (Excavator.bottomY entry.1) 0.01 = true)
         entries.

(** Sum of the force magnitudes of the penetrating parts of a list. *)
Definition totalGroundForce (entries : list (Body.t * string)) : Q :=
  foldr (fun entry acc =>
           Excavator.forceMagnitude
             (MathUtils.Math_abs (Excavator.bottomY entry.1)) + acc)
        0 (penetrating entries).

(** [e'] is [e] but for the force and torque of the chassis and for the
    ledger. *)
Definition sameButForces (e e' : Excavator.t) : Prop :=
  let b := Excavator.physicsBody (Excavator.physics e) in
  let b' := Excavator.physicsBody (Excavator.physics e') in
  Body.mass b' = Body.mass b
  /\ Body.type b' = Body.type b
  /\ Body.halfExtents b' = Body.halfExtents b
  /\ Body.position b' = Body.position b
  /\ Body.quaternion b' = Body.quaternion b
  /\ Body.velocity b' = Body.velocity b
  /\ Body.angularVelocity b' = Body.angularVelocity b
  /\ Excavator.kinematicBodies (Excavator.physics e')
     = Excavator.kinematicBodies (Excavator.physics e)
  /\ Excavator.joints e' = Excavator.joints e
  /\ Excavator.leftTreadForce e' = Excavator.leftTreadForce e
  /\ Excavator.rightTreadForce e' = Excavator.rightTreadForce e.

(** Every entry is filed under its own part name. *)
Definition filedByName (m : gmap string Excavator.CollisionData) : Prop :=
  forall k d, m !! k = Some d -> Excavator.partName d = k.

(** A merged input with nothing held: sticks centred, triggers released,
    no button pressed. *)
Definition neutral (m : GamepadState.t) : Prop :=
  GamepadState.leftStickX m == 0 /\ GamepadState.leftStickY m == 0
  /\ GamepadState.rightStickX m == 0 /\ GamepadState.rightStickY m == 0
  /\ GamepadState.leftTrigger m == 0 /\ GamepadState.rightTrigger m == 0
  /\ GamepadState.leftBumper m = false /\ GamepadState.rightBumper m = false
  /\ GamepadState.dpadUp m = false /\ GamepadState.dpadDown m = false
  /\ GamepadState.buttonY m = false /\ GamepadState.buttonA m = false.

(** The delta [handleControls] hands to the setter of joint [j], from the
    merged input [m]. *)
Definition controlDelta (deltaTime : Q) (m : GamepadState.t)
    (j : JointState.Joint) : Q :=
  match j with
  | JointState.Arm1 => GamepadState.rightStickX m * (1.0 * deltaTime)
  | JointState.Arm2 => - GamepadState.leftStickY m * (1.0 * deltaTime)
  | JointState.Bucket => - GamepadState.rightStickY m * (1.5 * deltaTime)
  | JointState.Thumb =>
      if GamepadState.dpadUp m then - (1.0 * deltaTime)
      else if GamepadState.dpadDown m then 1.0 * deltaTime
      else 0
  | JointState.Blade =>
      if GamepadState.buttonY m then - (0.5 * deltaTime)
      else if GamepadState.buttonA m then 0.5 * deltaTime
      else 0
  end.

End Session.

(** * Properties *)

(** ** Facts about the number helpers *)

Module MathUtilsFacts.
Import MathUtils.

Lemma ltb_lt a b : ltb a b = true <-> a < b.
Proof.
  unfold ltb. rewrite negb_true_iff, <- not_true_iff_false, Qle_bool_iff.
  split; [apply Qnot_le_lt | apply Qlt_not_le].
Qed.

Lemma ltb_ge a b : ltb a b = false <-> b <= a.
Proof. unfold ltb. rewrite negb_false_iff. apply Qle_bool_iff. Qed.

Lemma neqb_true a b : neqb a b = true <-> ~ a == b.
Proof.
  unfold neqb. rewrite negb_true_iff, <- not_true_iff_false, Qeq_bool_iff.
  reflexivity.
Qed.

(** Splits on the comparisons inside [Math.max] and [Math.min]. *)
Ltac minmax_cases :=
  unfold clamp, Math_max, Math_min in *;
  repeat match goal with
  | |- context [Qmin ?a ?b] =>
      let H := fresh "Hmin" in
      destruct (Q.min_spec a b) as [[? H]|[? H]]; rewrite !H in *
  | |- context [Qmax ?a ?b] =>
      let H := fresh "Hmax" in
      destruct (Q.max_spec a b) as [[? H]|[? H]]; rewrite !H in *
  end.

Lemma clamp_in_range v lo hi : lo <= hi -> lo <= clamp v lo hi <= hi.
Proof. intros Hb. minmax_cases; lra. Qed.

Lemma clamp_refines v lo hi : lo <= hi -> clamp v lo hi == clamp_spec v lo hi.
Proof.
  intros Hb. unfold clamp_spec.
  destruct (Qlt_le_dec v lo), (Qlt_le_dec hi v); minmax_cases; lra.
Qed.

Lemma clamp_id v lo hi : lo <= v <= hi -> clamp v lo hi == v.
Proof. intros [? ?]. minmax_cases; lra. Qed.

End MathUtilsFacts.

(** ** Joint setters *)

Module JointStateFacts.
Import MathUtils MathUtilsFacts JointState.

Lemma range_ordered j : jointMin j <= jointMax j.
Proof. destruct j; vm_compute; discriminate. Qed.

Lemma initial_inRange j : inRange j initial.
Proof. destruct j; split; vm_compute; discriminate. Qed.

Lemma setter_value j delta s :
  jointValue j (jointSetter j delta s)
  = clamp (jointValue j s + delta) (jointMin j) (jointMax j).
Proof. destruct j; reflexivity. Qed.

Lemma setter_flag j delta s :
  jointAtLimit j (jointSetter j delta s)
  = neqb delta 0 && Qeq_bool (jointValue j (jointSetter j delta s)) (jointValue j s).
Proof. destruct j; reflexivity. Qed.

(** A setter leaves the values and flags of the other joints, and the yaw,
    as they were. *)
Lemma setter_frame j j' delta s :
  j <> j' ->
  jointValue j' (jointSetter j delta s) = jointValue j' s
  /\ jointAtLimit j' (jointSetter j delta s) = jointAtLimit j' s
  /\ mainBodyRotation (jointSetter j delta s) = mainBodyRotation s.
Proof. destruct j, j'; intros Hne; try congruence; repeat split. Qed.

(** C1.  For each of the five limited setters, every delta and every
    in-range current value: the stored value is the sum [current + delta]
    clamped to the joint's range, and the at-limit flag is set exactly when
    the delta is nonzero and the stored value equals the previous one. *)
Theorem setter_contract (j : Joint) (delta : Q) (s : t) :
  inRange j s ->
  jointValue j (jointSetter j delta s)
    == clamp_spec (jointValue j s + delta) (jointMin j) (jointMax j)
  /\ (jointAtLimit j (jointSetter j delta s) = true
      <-> ~ delta == 0
          /\ jointValue j (jointSetter j delta s) == jointValue j s).
Proof.
  intros _. split.
  - rewrite setter_value. apply clamp_refines, range_ordered.
  - rewrite setter_flag, andb_true_iff, neqb_true, Qeq_bool_iff. reflexivity.
Qed.

Lemma setter_contract_witness :
  inRange Arm2 initial
  /\ jointValue Arm2 (jointSetter Arm2 0.5 initial) == 0.75
  /\ jointAtLimit Arm2 (jointSetter Arm2 0.5 initial) = false.
Proof.
  assert (Hin : inRange Arm2 initial) by (split; vm_compute; discriminate).
  destruct (setter_contract Arm2 0.5 initial Hin) as [Hv Hf].
  split; [exact Hin | split].
  - rewrite Hv. vm_compute. reflexivity.
  - vm_compute. reflexivity.
Defined.

(** C2, as the scenario states it, fails: pushing arm1 from 0.0 by +2.0
    stores 1.25, but the value changed, so the flag is not set. *)
Lemma arm1_scenario_flag_refuted :
  ~ (arm1Angle (setArm1Angle 2.0 initial) == 1.25
     /\ arm1AtLimit (setArm1Angle 2.0 initial) = true).
Proof. intros [_ Hflag]. vm_compute in Hflag. discriminate. Qed.

(** C2, amended.  With arm1 at 0.0, [setArm1Angle(2.0)] stores 1.25 and
    leaves the at-limit flag false. *)
Theorem arm1_scenario (s : t) :
  arm1Angle s == 0.0 ->
  arm1Angle (setArm1Angle 2.0 s) == 1.25
  /\ arm1AtLimit (setArm1Angle 2.0 s) = false.
Proof.
  intros H0.
  assert (Hv : arm1Angle (setArm1Angle 2.0 s) == 1.25).
  { simpl. unfold ARM1_MIN_ANGLE, ARM1_MAX_ANGLE. minmax_cases; lra. }
  split; [exact Hv |].
  change (arm1AtLimit (setArm1Angle 2.0 s))
    with (neqb 2.0 0 && Qeq_bool (arm1Angle (setArm1Angle 2.0 s)) (arm1Angle s)).
  apply andb_false_iff. right.
  apply not_true_iff_false. rewrite Qeq_bool_iff, Hv, H0. lra.
Qed.

Lemma arm1_scenario_witness :
  arm1Angle initial == 0.0
  /\ arm1Angle (setArm1Angle 2.0 initial) == 1.25
  /\ arm1AtLimit (setArm1Angle 2.0 initial) = false.
Proof.
  assert (H0 : arm1Angle initial == 0.0) by (vm_compute; reflexivity).
  split; [exact H0 | exact (arm1_scenario initial H0)].
Defined.

(** Once the arm rests on its upper bound, a further upward push sets the
    flag. *)
Lemma arm1_flag_on_second_push :
  arm1AtLimit (setArm1Angle 2.0 (setArm1Angle 2.0 initial)) = true.
Proof. vm_compute. reflexivity. Qed.

Lemma call_inRange c s : (forall j, inRange j s) -> forall j, inRange j (call c s).
Proof.
  intros Hs j. destruct c as [delta | j' delta].
  - destruct j; exact (Hs _).
  - destruct (Hs j) as [Hlo Hhi].
    destruct j, j'; unfold inRange; simpl;
      solve [ split; assumption
            | apply clamp_in_range; vm_compute; discriminate ].
Qed.

Lemma run_inRange cs : forall s, (forall j, inRange j s) -> forall j, inRange j (run cs s).
Proof.
  induction cs as [| c cs IH]; intros s Hs j; [exact (Hs j) |].
  simpl. apply IH. apply call_inRange, Hs.
Qed.

Lemma call_yaw c s :
  mainBodyRotation (call c s)
  = match c with
    | CallYaw delta => mainBodyRotation s + delta
    | CallJoint _ _ => mainBodyRotation s
    end.
Proof. destruct c as [delta | [] delta]; reflexivity. Qed.

Lemma run_yaw cs : forall s, mainBodyRotation (run cs s) == mainBodyRotation s + yawSum cs.
Proof.
  induction cs as [| c cs IH]; intros s; simpl.
  - lra.
  - change (fold_left _ cs (call c s)) with (run cs (call c s)).
    rewrite IH, call_yaw. destruct c; lra.
Qed.

(** C3, as stated, fails for the yaw setter: no pair of bounds holds the
    yaw for every sequence of calls. *)
Lemma yaw_unbounded :
  ~ exists lo hi : Q,
      forall cs, lo <= mainBodyRotation (run cs initial) <= hi.
Proof.
  intros (lo & hi & Hb).
  destruct (Hb []) as [_ H0]. simpl in H0.
  destruct (Hb [CallYaw (hi + 1)]) as [_ H1]. simpl in H1. lra.
Qed.

(** C3, amended.  From the initial state, after any sequence of calls of
    the six setters, each of the five limited joints lies in its range; the
    yaw is the plain sum of its deltas. *)
Theorem limited_joints_stay_in_range (cs : list Call) :
  (forall j, inRange j (run cs initial))
  /\ mainBodyRotation (run cs initial) == yawSum cs.
Proof.
  split.
  - apply run_inRange, initial_inRange.
  - rewrite run_yaw. simpl. lra.
Qed.

End JointStateFacts.

(** ** Mass distribution of [createPhysics] *)

Module MassFacts.
Import Excavator.

(** The proxy parts are created kinematic; the chassis is dynamic as soon as
    its mass is positive. *)
Lemma created_chassis_dynamic pos :
  Body.type (physicsBody (createPhysics DIMENSIONS pos)) = Body.DYNAMIC.
Proof. vm_compute. reflexivity. Qed.

Lemma created_proxies_kinematic d pos :
  Forall (fun entry => Body.type (fst entry) = Body.KINEMATIC)
         (kinematicBodies (createPhysics d pos)).
Proof. repeat constructor. Qed.

(** With the declared dimensions the seven proxy masses add up to the share
    of the total that the chassis does not take. *)
Lemma proxy_mass_sum_declared pos :
  proxyMassSum (createPhysics DIMENSIONS pos) == 2.74 / 4.54 * 907.
Proof. vm_compute. reflexivity. Qed.

(** C4, as stated, fails: with the declared dimensions the masses of the
    seven proxy parts do not add up to 907. *)
Lemma proxy_masses_not_total :
  ~ proxyMassSum (createPhysics DIMENSIONS (Vec3.mk 0 1 0)) == totalMass.
Proof. intros H. vm_compute in H. discriminate. Qed.

(** C4, amended.  For any dimension constants whose total volume is not
    zero, the chassis mass and the seven proxy masses together add up to the
    total mass of 907. *)
Theorem masses_sum_to_total (d : Dimensions) (pos : Vec3.t) :
  ~ totalVolume d == 0 ->
  Body.mass (physicsBody (createPhysics d pos))
  + proxyMassSum (createPhysics d pos) == 907.
Proof.
  intros Hvol. unfold proxyMassSum, createPhysics, Body.create; simpl.
  unfold totalMass, totalVolume in *. field. exact Hvol.
Qed.

Lemma masses_sum_to_total_witness :
  ~ totalVolume DIMENSIONS == 0
  /\ Body.mass (physicsBody (createPhysics DIMENSIONS (Vec3.mk 0 1 0)))
     + proxyMassSum (createPhysics DIMENSIONS (Vec3.mk 0 1 0)) == 907.
Proof.
  assert (Hvol : ~ totalVolume DIMENSIONS == 0).
  { intros H. vm_compute in H. discriminate. }
  split; [exact Hvol | exact (masses_sum_to_total _ _ Hvol)].
Defined.

End MassFacts.

(** ** Ground contact: [checkKinematicCollisions] *)

Module GroundContactFacts.
Import MathUtils MathUtilsFacts Excavator.

Lemma applyForce_dynamic f r b :
  Body.type b = Body.DYNAMIC ->
  Body.force (Body.applyForce f r b) = Vec3.vadd (Body.force b) f
  /\ Body.torque (Body.applyForce f r b)
     = Vec3.vadd (Body.torque b) (Vec3.cross r f).
Proof. unfold Body.applyForce. intros ->. split; reflexivity. Qed.

Lemma check_clear now e body name :
  0.01 <= bottomY body -> checkKinematicBody now e (body, name) = e.
Proof.
  intros Hge. unfold checkKinematicBody.
  apply ltb_ge in Hge. rewrite Hge. reflexivity.
Qed.

Lemma check_hit now e body name :
  bottomY body < 0.01 ->
  checkKinematicBody now e (body, name)
  = let n := Vec3.mk 0 1 0 in
    let f := Vec3.scale n (forceMagnitude (Math_abs (bottomY body))) in
    withLedger (trackCollision now name n f)
      (withPhysicsBody
         (Body.applyForce f
            (Vec3.vsub (Body.position body)
                       (Body.position (physicsBody (physics e))))) e).
Proof.
  intros Hlt. unfold checkKinematicBody.
  apply ltb_lt in Hlt. rewrite Hlt. reflexivity.
Qed.

Lemma check_hit_force now e body name :
  Body.type (physicsBody (physics e)) = Body.DYNAMIC ->
  bottomY body < 0.01 ->
  Body.force (physicsBody (physics (checkKinematicBody now e (body, name))))
  = Vec3.vadd (Body.force (physicsBody (physics e)))
      (Vec3.scale (Vec3.mk 0 1 0) (forceMagnitude (Math_abs (bottomY body)))).
Proof.
  intros Hdyn Hlt. rewrite check_hit by exact Hlt. simpl.
  apply applyForce_dynamic, Hdyn.
Qed.

Lemma forceMagnitude_increasing d1 d2 :
  d1 < d2 -> forceMagnitude d1 < forceMagnitude d2.
Proof.
  unfold forceMagnitude, COLLISION_FORCE_MULTIPLIER, PENETRATION_FORCE_MULTIPLIER.
  intros H. lra.
Qed.

Lemma forceMagnitude_positive d : 0 <= d -> 0 < forceMagnitude d.
Proof.
  unfold forceMagnitude, COLLISION_FORCE_MULTIPLIER, PENETRATION_FORCE_MULTIPLIER.
  intros H. lra.
Qed.

(** A pass over parts that all clear the threshold changes nothing. *)
Lemma pass_clear now entries : forall e,
  Forall (fun entry => 0.01 <= bottomY (fst entry)) entries ->
  fold_left (checkKinematicEntry now) entries e = e.
Proof.
  induction entries as [| [body name] entries IH]; intros e Hall; [reflexivity |].
  inversion Hall as [| ? ? Hhead Htail]; subst. simpl in Hhead.
  cbn [fold_left].
  change (checkKinematicEntry now e (body, name))
    with (checkKinematicBody (now name) e (body, name)).
  rewrite check_clear by exact Hhead. apply IH, Htail.
Qed.

Lemma checkKinematicCollisions_clear now e :
  Forall (fun entry => 0.01 <= bottomY (fst entry))
         (kinematicBodies (physics e)) ->
  checkKinematicCollisions now e = e.
Proof. apply pass_clear. Qed.

(** Rotation by a quaternion is linear, so the height the detector tests,
    that of the centre of the -Y face, is the mean of the heights of the four
    corners of that face. *)
Lemma bottomY_mean_of_face body :
  let h := Body.halfExtents body in
  bottomY body
  == (worldY body (Vec3.mk (- Vec3.x h) (- Vec3.y h) (- Vec3.z h))
      + worldY body (Vec3.mk (- Vec3.x h) (- Vec3.y h) (Vec3.z h))
      + worldY body (Vec3.mk (Vec3.x h) (- Vec3.y h) (- Vec3.z h))
      + worldY body (Vec3.mk (Vec3.x h) (- Vec3.y h) (Vec3.z h))) / 4.
Proof.
  cbv zeta. unfold bottomY, worldY, Quaternion.vmult.
  cbn [Vec3.x Vec3.y Vec3.z]. field.
Qed.

(** The tested height is never below the lowest point of the box. *)
Lemma lowestPoint_le_bottomY body : lowestPointY body <= bottomY body.
Proof.
  rewrite bottomY_mean_of_face. unfold lowestPointY, boxCorners. cbn [foldr].
  set (h := Body.halfExtents body).
  set (w1 := worldY body (Vec3.mk (- Vec3.x h) (- Vec3.y h) (- Vec3.z h))).
  set (w2 := worldY body (Vec3.mk (- Vec3.x h) (- Vec3.y h) (Vec3.z h))).
  set (w3 := worldY body (Vec3.mk (Vec3.x h) (- Vec3.y h) (- Vec3.z h))).
  set (w4 := worldY body (Vec3.mk (Vec3.x h) (- Vec3.y h) (Vec3.z h))).
  match goal with |- Qmin w1 (Qmin w2 (Qmin w3 (Qmin w4 ?rest))) <= _ =>
    set (r := rest) end.
  pose proof (Q.le_min_l w1 (Qmin w2 (Qmin w3 (Qmin w4 r)))) as H1.
  pose proof (Q.le_min_r w1 (Qmin w2 (Qmin w3 (Qmin w4 r)))) as H1r.
  pose proof (Q.le_min_l w2 (Qmin w3 (Qmin w4 r))) as H2.
  pose proof (Q.le_min_r w2 (Qmin w3 (Qmin w4 r))) as H2r.
  pose proof (Q.le_min_l w3 (Qmin w4 r)) as H3.
  pose proof (Q.le_min_r w3 (Qmin w4 r)) as H3r.
  pose proof (Q.le_min_l w4 r) as H4.
  assert (Hquarter : forall x, x / 4 == x * 0.25) by (intros x; field).
  rewrite Hquarter. lra.
Qed.

(** A part whose lowest point is at or above the threshold gets no force:
    this half of the specification the detector does keep. *)
Lemma clear_lowest_point_no_force now e body name :
  0.01 <= lowestPointY body -> checkKinematicBody now e (body, name) = e.
Proof.
  intros Hlow. apply check_clear.
  pose proof (lowestPoint_le_bottomY body). lra.
Qed.

(** For an upright box (identity orientation, non-negative half-extents) the
    tested height is the lowest point. *)
Lemma upright_bottomY_is_lowest m ty h pos v av f tq :
  0 <= Vec3.x h -> 0 <= Vec3.y h -> 0 <= Vec3.z h ->
  lowestPointY (Body.mk m ty h pos Quaternion.identity v av f tq)
  == bottomY (Body.mk m ty h pos Quaternion.identity v av f tq).
Proof.
  intros Hx Hy Hz.
  unfold lowestPointY, bottomY, boxCorners, worldY, Quaternion.vmult,
    Quaternion.identity.
  cbn [foldr Body.halfExtents Body.position Body.quaternion
       Vec3.x Vec3.y Vec3.z Quaternion.x Quaternion.y Quaternion.z Quaternion.w].
  repeat match goal with
  | |- context [Qmin ?a ?b] =>
      let H := fresh "Hmin" in
      destruct (Q.min_spec a b) as [[? H]|[? H]]; rewrite !H in *
  end; lra.
Qed.

(** C5.  The detector does not test the world-space lowest point of a
    rotated part.  For a box with the half-extents of arm2, (0.1, 0.75, 0.1),
    centred at height 0.5 and turned half a turn about the X axis, the lowest
    point is at -0.25, below the 0.01 threshold, so a force is due; yet the
    height the detector computes is 1.25 and it leaves the excavator as it
    was, applying no force. *)
Theorem detector_misses_half_turned_part
    (now : Z) (e : t) (name : string)
    (m : Q) (ty : Body.BodyType) (v av f tq : Vec3.t) :
  let body :=
    Body.mk m ty (Vec3.mk 0.1 0.75 0.1) (Vec3.mk 0 0.5 2)
      (Quaternion.mk 1 0 0 0) v av f tq in
  lowestPointY body == -0.25
  /\ lowestPointY body < 0.01
  /\ bottomY body == 1.25
  /\ checkKinematicBody now e (body, name) = e.
Proof.
  intros body.
  assert (Hlow : lowestPointY body == -0.25) by (vm_compute; reflexivity).
  assert (Hy : bottomY body == 1.25) by (vm_compute; reflexivity).
  split; [exact Hlow | split; [rewrite Hlow; reflexivity | split; [exact Hy |]]].
  apply check_clear. rewrite Hy. vm_compute. discriminate.
Qed.

(** The proxy of the scenario: a box with half-extents (0.15, 0.2, 0.15) at
    (0, 0.19, 0) with the identity orientation. *)
Lemma scenario_bottomY m ty v av f tq :
  bottomY (Body.mk m ty (Vec3.mk 0.15 0.2 0.15) (Vec3.mk 0 0.19 0)
             Quaternion.identity v av f tq) == -0.01.
Proof. vm_compute. reflexivity. Qed.

(** C6.  For the proxy of the scenario the detector computes bottom
    Y = -0.01, takes the penetrating branch, computes the depth 0.01 and adds
    to the chassis the upward force [baseForce * (1 + 0.01 * penetrationGain)]. *)
Theorem ground_scenario (now : Z) (e : t) (name : string)
    (m : Q) (ty : Body.BodyType) (v av f tq : Vec3.t) :
  Body.type (physicsBody (physics e)) = Body.DYNAMIC ->
  let body :=
    Body.mk m ty (Vec3.mk 0.15 0.2 0.15) (Vec3.mk 0 0.19 0)
      Quaternion.identity v av f tq in
  bottomY body == -0.01
  /\ ltb (bottomY body) 0.01 = true
  /\ Math_abs (bottomY body) == 0.01
  /\ Vec3.eqv
       (Body.force (physicsBody (physics (checkKinematicBody now e (body, name)))))
       (Vec3.vadd (Body.force (physicsBody (physics e)))
          (Vec3.mk 0
             (COLLISION_FORCE_MULTIPLIER
              * (1 + 0.01 * PENETRATION_FORCE_MULTIPLIER))
             0)).
Proof.
  intros Hdyn body.
  assert (Hy : bottomY body == -0.01) by apply scenario_bottomY.
  assert (Hlt : bottomY body < 0.01) by (rewrite Hy; reflexivity).
  assert (Habs : Math_abs (bottomY body) == 0.01).
  { unfold Math_abs. rewrite Hy. reflexivity. }
  split; [exact Hy | split; [apply ltb_lt, Hlt | split; [exact Habs |]]].
  rewrite check_hit_force by assumption.
  unfold Vec3.eqv, forceMagnitude, Vec3.vadd, Vec3.scale.
  cbn [Vec3.x Vec3.y Vec3.z]. rewrite Habs. repeat split; ring.
Qed.

Lemma ground_scenario_witness :
  let e := create (Vec3.mk 0 1 0) in
  let body :=
    Body.mk 1 Body.KINEMATIC (Vec3.mk 0.15 0.2 0.15) (Vec3.mk 0 0.19 0)
      Quaternion.identity Vec3.zero Vec3.zero Vec3.zero Vec3.zero in
  Body.type (physicsBody (physics e)) = Body.DYNAMIC
  /\ Vec3.eqv
       (Body.force (physicsBody (physics (checkKinematicBody 0 e (body, "Bucket"%string)))))
       (Vec3.mk 0 1020 0).
Proof.
  intros e body. subst body.
  assert (Hdyn : Body.type (physicsBody (physics e)) = Body.DYNAMIC)
    by (vm_compute; reflexivity).
  destruct (ground_scenario 0 e "Bucket" 1 Body.KINEMATIC
              Vec3.zero Vec3.zero Vec3.zero Vec3.zero Hdyn)
    as (_ & _ & _ & (Hx & Hy & Hz)).
  split; [exact Hdyn |].
  unfold Vec3.eqv. rewrite Hx, Hy, Hz.
  repeat split; vm_compute; reflexivity.
Defined.

End GroundContactFacts.

(** ** The collision ledger *)

Module LedgerFacts.
Import MathUtils MathUtilsFacts Excavator Session.

Lemma events_trackCollision now name n f e :
  events (withLedger (trackCollision now name n f) e)
  = <[name := mkCollisionData name now n f true]> (events e).
Proof. reflexivity. Qed.

Lemma events_withPhysicsBody g e : events (withPhysicsBody g e) = events e.
Proof. reflexivity. Qed.

Lemma events_resetFrameCollisions now e :
  events (resetFrameCollisions now e) = age now <$> events e.
Proof. reflexivity. Qed.

Lemma events_handleControls dt g k e :
  events (ExcavatorSimulator.handleControls dt g k e) = events e.
Proof. reflexivity. Qed.

(** What one iteration of the ground detector does to the map. *)
Lemma events_checkKinematicBody now e body name :
  events (checkKinematicBody now e (body, name))
  = if ltb (bottomY body) 0.01
    then <[name := mkCollisionData name now (Vec3.mk 0 1 0)
                     (Vec3.scale (Vec3.mk 0 1 0)
                        (forceMagnitude (Math_abs (bottomY body)))) true]>
           (events e)
    else events e.
Proof. unfold checkKinematicBody. destruct (ltb _ _); reflexivity. Qed.

Lemma events_applyCollisionForce now contact partBody partName e :
  events (applyCollisionForce now contact partBody partName e)
  = match contact with
    | None => events e
    | Some c =>
        <[partName := mkCollisionData partName now (ni c)
                        (Vec3.scale (ni c) reactionForceMultiplier) true]>
          (events e)
    end.
Proof.
  destruct contact as [c |]; [| reflexivity].
  unfold applyCollisionForce. destruct (BodyRef_eqb _ _); reflexivity.
Qed.

Lemma insert_writes (m : gmap string CollisionData) name now n f :
  let m' := <[name := mkCollisionData name now n f true]> m in
  (exists n' f', m' !! name = Some (mkCollisionData name now n' f' true))
  /\ (forall k, k <> name -> m' !! k = m !! k)
  /\ (is_Some (m !! name) -> size m' = size m).
Proof.
  intros m'. subst m'. split; [| split].
  - eexists _, _. apply lookup_insert_eq.
  - intros k Hne. apply lookup_insert_ne. congruence.
  - apply map_size_insert_Some.
Qed.

Lemma insert_keeps (m : gmap string CollisionData) name d k :
  is_Some (m !! k) -> is_Some (<[name := d]> m !! k).
Proof. intros Hk. apply lookup_insert_is_Some'. right. exact Hk. Qed.

Lemma age_keeps now (m : gmap string CollisionData) k :
  is_Some (m !! k) -> is_Some ((age now <$> m) !! k).
Proof. intros Hk. rewrite lookup_fmap. apply fmap_is_Some, Hk. Qed.

Lemma checkKinematicBody_keeps now e entry k :
  is_Some (events e !! k) -> is_Some (events (checkKinematicBody now e entry) !! k).
Proof.
  destruct entry as [body name]. rewrite events_checkKinematicBody.
  destruct (ltb _ _); [apply insert_keeps | trivial].
Qed.

Lemma pass_keeps now entries k : forall e,
  is_Some (events e !! k) ->
  is_Some (events (fold_left (checkKinematicEntry now) entries e) !! k).
Proof.
  induction entries as [| entry entries IH]; intros e Hk; [exact Hk |].
  cbn [fold_left]. apply IH. unfold checkKinematicEntry.
  apply checkKinematicBody_keeps, Hk.
Qed.

Lemma step_keeps op e k :
  is_Some (events e !! k) -> is_Some (events (step op e) !! k).
Proof.
  intros Hk. destruct op; cbn [step].
  - rewrite events_resetFrameCollisions. apply age_keeps, Hk.
  - apply checkKinematicBody_keeps, Hk.
  - apply pass_keeps, Hk.
  - rewrite events_applyCollisionForce.
    destruct contact; [apply insert_keeps |]; exact Hk.
  - rewrite events_handleControls. exact Hk.
Qed.

Lemma run_keeps ops k : forall e,
  is_Some (events e !! k) -> is_Some (events (run ops e) !! k).
Proof.
  induction ops as [| op ops IH]; intros e Hk; [exact Hk |].
  cbn [run fold_left]. apply IH, step_keeps, Hk.
Qed.

Lemma age_spec now d :
  partName (age now d) = partName d
  /\ timestamp (age now d) = timestamp d
  /\ contactNormal (age now d) = contactNormal d
  /\ appliedForce (age now d) = appliedForce d
  /\ isActive (age now d) = isActive d && negb (100 <? now - timestamp d)%Z.
Proof.
  unfold age. destruct (100 <? now - timestamp d)%Z; cbn.
  - rewrite andb_false_r. repeat split.
  - rewrite andb_true_r. repeat split.
Qed.

(** C7.  The collision map holds one entry per part name; a contact of a
    part writes that part's entry and, when the part already has one,
    leaves the number of entries as it was; no call removes an entry; and
    the frame-start pass turns an entry inactive exactly when more than
    100 ms separate it from its timestamp, leaving every other entry and
    every other field as it was. *)
Theorem ledger_discipline :
  (forall e : Excavator.t, NoDup (map_to_list (events e)).*1)
  /\ (forall now e body name,
        bottomY body < 0.01 ->
        writesEntry name now e (checkKinematicBody now e (body, name)))
  /\ (forall now contact partBody partName e,
        writesEntry partName now e
          (applyCollisionForce now (Some contact) partBody partName e))
  /\ (forall ops e k,
        is_Some (events e !! k) -> is_Some (events (run ops e) !! k))
  /\ (forall now e k,
        events (resetFrameCollisions now e) !! k = age now <$> events e !! k)
  /\ (forall now d,
        (100 < now - timestamp d -> isActive (age now d) = false)%Z
        /\ (now - timestamp d <= 100 -> age now d = d)%Z
        /\ timestamp (age now d) = timestamp d).
Proof.
  split; [| split; [| split; [| split; [| split]]]].
  - intros e. apply NoDup_fst_map_to_list.
  - intros now e body name Hlt. unfold writesEntry.
    rewrite events_checkKinematicBody.
    apply ltb_lt in Hlt. rewrite Hlt. apply insert_writes.
  - intros now contact partBody partName e. unfold writesEntry.
    rewrite events_applyCollisionForce. apply insert_writes.
  - intros ops e k. apply run_keeps.
  - intros now e k. rewrite events_resetFrameCollisions. apply lookup_fmap.
  - intros now d. unfold age.
    destruct (Z.ltb_spec 100 (now - timestamp d)); repeat split; lia.
Qed.

Lemma ledger_discipline_witness :
  let e := create (Vec3.mk 0 1 0) in
  let body :=
    Body.mk 1 Body.KINEMATIC (Vec3.mk 0.15 0.2 0.15) (Vec3.mk 0 0.19 0)
      Quaternion.identity Vec3.zero Vec3.zero Vec3.zero Vec3.zero in
  let e1 := checkKinematicBody 5 e (body, "Bucket"%string) in
  bottomY body < 0.01
  /\ is_Some (events e1 !! "Bucket"%string)
  /\ size (events (checkKinematicBody 9 e1 (body, "Bucket"%string)))
     = size (events e1).
Proof.
  intros e body e1.
  assert (Hlt : bottomY body < 0.01) by (vm_compute; reflexivity).
  destruct ledger_discipline as (_ & Hcontact & _).
  unfold writesEntry in Hcontact.
  destruct (Hcontact 5%Z e body "Bucket"%string Hlt) as ((n & f & Hfirst) & _).
  assert (Hsome : is_Some (events e1 !! "Bucket"%string)).
  { exists (mkCollisionData "Bucket" 5 n f true). exact Hfirst. }
  destruct (Hcontact 9%Z e1 body "Bucket"%string Hlt) as (_ & _ & Hsize).
  split; [exact Hlt | split; [exact Hsome | exact (Hsize Hsome)]].
Defined.

End LedgerFacts.

(** ** Merging the two controllers *)

Module InputFacts.
Import MathUtils MathUtilsFacts ExcavatorSimulator.

Lemma merged_axis_clamped a b :
  Math_max (-1) (Math_min 1 (a + b)) == clamp_spec (a + b) (-1) 1.
Proof. apply (clamp_refines (a + b) (-1) 1). lra. Qed.

Lemma merged_axis_in_range a b : -1 <= Math_max (-1) (Math_min 1 (a + b)) <= 1.
Proof. apply (clamp_in_range (a + b) (-1) 1). lra. Qed.

(** C8.  Each merged stick axis is the sum of the two sources clamped to
    [-1, 1]; with 0.6 on the left stick X of both sources the merged value
    is 1.0, not 1.2. *)
Theorem merged_sticks_add_and_clamp (g k : GamepadState.t) :
  (GamepadState.leftStickX (mergeStates g k)
     == clamp_spec (GamepadState.leftStickX g + GamepadState.leftStickX k) (-1) 1
   /\ GamepadState.leftStickY (mergeStates g k)
     == clamp_spec (GamepadState.leftStickY g + GamepadState.leftStickY k) (-1) 1
   /\ GamepadState.rightStickX (mergeStates g k)
     == clamp_spec (GamepadState.rightStickX g + GamepadState.rightStickX k) (-1) 1
   /\ GamepadState.rightStickY (mergeStates g k)
     == clamp_spec (GamepadState.rightStickY g + GamepadState.rightStickY k) (-1) 1)
  /\ (GamepadState.leftStickX g == 0.6 ->
      GamepadState.leftStickX k == 0.6 ->
      GamepadState.leftStickX (mergeStates g k) == 1.0
      /\ ~ GamepadState.leftStickX (mergeStates g k) == 1.2).
Proof.
  split.
  - repeat split; apply merged_axis_clamped.
  - intros Hg Hk.
    assert (H1 : GamepadState.leftStickX (mergeStates g k) == 1.0).
    { cbn [mergeStates GamepadState.leftStickX]. rewrite Hg, Hk.
      vm_compute. reflexivity. }
    split; [exact H1 |]. rewrite H1. intros H. vm_compute in H. discriminate.
Qed.

Lemma merged_sticks_add_and_clamp_witness :
  let g := GamepadState.mk 0.6 0 0 0 0 0 false false false false false false in
  let k := GamepadState.mk 0.6 0 0 0 0 0 false false false false false false in
  GamepadState.leftStickX g == 0.6
  /\ GamepadState.leftStickX k == 0.6
  /\ GamepadState.leftStickX (mergeStates g k) == 1.0.
Proof.
  intros g k.
  assert (Hg : GamepadState.leftStickX g == 0.6) by (vm_compute; reflexivity).
  assert (Hk : GamepadState.leftStickX k == 0.6) by (vm_compute; reflexivity).
  destruct (merged_sticks_add_and_clamp g k) as [_ Hscenario].
  split; [exact Hg | split; [exact Hk | exact (proj1 (Hscenario Hg Hk))]].
Defined.

End InputFacts.

(** ** Tread propulsion *)

Module TreadFacts.
Import MathUtils MathUtilsFacts Excavator ExcavatorSimulator.

(** Rotating by [q] scales squared lengths by the square of [q]'s squared
    norm, so an orientation keeps lengths. *)
Lemma vmult_lengthSquared q v :
  Vec3.lengthSquared (Quaternion.vmult q v)
  == Quaternion.normSquared q * Quaternion.normSquared q * Vec3.lengthSquared v.
Proof.
  unfold Vec3.lengthSquared, Vec3.dot, Quaternion.normSquared, Quaternion.vmult.
  cbn [Vec3.x Vec3.y Vec3.z]. ring.
Qed.

Lemma treadForcesOnBody_dynamic l r b :
  Body.type b = Body.DYNAMIC ->
  treadForcesOnBody l r b
  = let forward := Quaternion.vmult (Body.quaternion b) (Vec3.mk 0 0 1) in
    let f := Vec3.scale forward ((l + r) / 2 * forceStrength) in
    {| Body.mass := Body.mass b;
       Body.type := Body.type b;
       Body.halfExtents := Body.halfExtents b;
       Body.position := Body.position b;
       Body.quaternion := Body.quaternion b;
       Body.velocity := Body.velocity b;
       Body.angularVelocity := Body.angularVelocity b;
       Body.force := Vec3.vadd (Body.force b) f;
       Body.torque :=
         Vec3.vadd (Vec3.vadd (Body.torque b) (Vec3.cross Vec3.zero f))
                   (Vec3.mk 0 ((r - l) * torqueStrength) 0) |}.
Proof.
  intros Hdyn. unfold treadForcesOnBody, Body.applyTorque, Body.applyForce.
  rewrite !Hdyn. reflexivity.
Qed.

(** C9.  On the dynamic chassis, [applyTreadForces] adds the force
    [forward * (average(left, right) * forceGain)], where [forward] is the
    chassis orientation applied to (0,0,1) (a unit vector when the
    orientation is one), adds the torque [(right - left) * torqueGain] about
    the vertical axis and nothing else (the force acts at the centre of
    mass), and leaves every other field of the chassis and of the
    excavator as it was. *)
Theorem tread_forces_effect (leftSpeed rightSpeed : Q) (e : t) :
  -1 <= leftSpeed <= 1 ->
  -1 <= rightSpeed <= 1 ->
  Body.type (physicsBody (physics e)) = Body.DYNAMIC ->
  let b := physicsBody (physics e) in
  let e' := applyTreadForces leftSpeed rightSpeed e in
  let b' := physicsBody (physics e') in
  let forward := Quaternion.vmult (Body.quaternion b) (Vec3.mk 0 0 1) in
  Body.force b'
    = Vec3.vadd (Body.force b)
        (Vec3.scale forward ((leftSpeed + rightSpeed) / 2 * forceStrength))
  /\ (Quaternion.normSquared (Body.quaternion b) == 1 ->
      Vec3.lengthSquared forward == 1)
  /\ Vec3.eqv (Body.torque b')
       (Vec3.vadd (Body.torque b)
          (Vec3.mk 0 ((rightSpeed - leftSpeed) * torqueStrength) 0))
  /\ (Body.mass b' = Body.mass b
      /\ Body.type b' = Body.type b
      /\ Body.halfExtents b' = Body.halfExtents b
      /\ Body.position b' = Body.position b
      /\ Body.quaternion b' = Body.quaternion b
      /\ Body.velocity b' = Body.velocity b
      /\ Body.angularVelocity b' = Body.angularVelocity b)
  /\ (joints e' = joints e
      /\ leftTreadForce e' = leftTreadForce e
      /\ rightTreadForce e' = rightTreadForce e
      /\ ledger e' = ledger e
      /\ kinematicBodies (physics e') = kinematicBodies (physics e)).
Proof.
  intros _ _ Hdyn b e' b' forward.
  assert (Hb' : b' = treadForcesOnBody leftSpeed rightSpeed b) by reflexivity.
  rewrite (treadForcesOnBody_dynamic _ _ _ Hdyn) in Hb'. cbv zeta in Hb'.
  fold forward in Hb'. rewrite Hb'. cbn [Body.force Body.torque Body.mass
    Body.type Body.halfExtents Body.position Body.quaternion Body.velocity
    Body.angularVelocity].
  split; [reflexivity | split; [| split; [| split]]].
  - intros Hunit. unfold forward. rewrite vmult_lengthSquared, Hunit.
    vm_compute. reflexivity.
  - unfold Vec3.eqv, Vec3.vadd, Vec3.cross, Vec3.zero.
    cbn [Vec3.x Vec3.y Vec3.z]. unfold b. repeat split; ring.
  - repeat split.
  - repeat split.
Qed.

Lemma tread_forces_effect_witness :
  let e := create (Vec3.mk 0 1 0) in
  -1 <= 1 <= 1
  /\ -1 <= 0.5 <= 1
  /\ Body.type (physicsBody (physics e)) = Body.DYNAMIC
  /\ Vec3.eqv (Body.force (physicsBody (physics (applyTreadForces 1 0.5 e))))
              (Vec3.mk 0 0 1125).
Proof.
  intros e.
  assert (Hl : -1 <= 1 <= 1) by (split; vm_compute; discriminate).
  assert (Hr : -1 <= 0.5 <= 1) by (split; vm_compute; discriminate).
  assert (Hdyn : Body.type (physicsBody (physics e)) = Body.DYNAMIC)
    by (vm_compute; reflexivity).
  destruct (tread_forces_effect 1 0.5 e Hl Hr Hdyn) as (Hforce & _).
  split; [exact Hl | split; [exact Hr | split; [exact Hdyn |]]].
  rewrite Hforce. repeat split; vm_compute; reflexivity.
Defined.

Lemma treadSpeed_bumper trigger : treadSpeed trigger true = -1.0.
Proof. unfold treadSpeed. destruct (ltb 0 trigger); reflexivity. Qed.

Lemma treadSpeed_trigger trigger :
  treadSpeed trigger false == Math_max 0 trigger.
Proof.
  unfold treadSpeed. destruct (ltb 0 trigger) eqn:Ht.
  - apply ltb_lt in Ht. minmax_cases; lra.
  - apply ltb_ge in Ht. minmax_cases; lra.
Qed.

(** What [handleControls] stores and applies for the treads. *)
Lemma handleControls_treads dt g k e :
  let m := mergeStates g k in
  let leftSpeed :=
    treadSpeed (GamepadState.leftTrigger m) (GamepadState.leftBumper m) in
  let rightSpeed :=
    treadSpeed (GamepadState.rightTrigger m) (GamepadState.rightBumper m) in
  leftTreadForce (handleControls dt g k e) = leftSpeed
  /\ rightTreadForce (handleControls dt g k e) = rightSpeed
  /\ physicsBody (physics (handleControls dt g k e))
     = treadForcesOnBody leftSpeed rightSpeed (physicsBody (physics e)).
Proof. repeat split. Qed.

(** C10.  When the merged left bumper is pressed, the left speed computed
    by [handleControls] is -1.0 whatever the merged left trigger is: it is
    the value stored by [setTreadForces] and the one [applyTreadForces]
    works with; the same holds for the right side. *)
Theorem bumper_overrides_trigger
    (dt : Q) (g k : GamepadState.t) (e : t) :
  let m := mergeStates g k in
  (GamepadState.leftBumper m = true ->
   treadSpeed (GamepadState.leftTrigger m) (GamepadState.leftBumper m) = -1.0
   /\ leftTreadForce (handleControls dt g k e) = -1.0
   /\ physicsBody (physics (handleControls dt g k e))
      = treadForcesOnBody (-1.0)
          (treadSpeed (GamepadState.rightTrigger m) (GamepadState.rightBumper m))
          (physicsBody (physics e)))
  /\ (GamepadState.rightBumper m = true ->
      treadSpeed (GamepadState.rightTrigger m) (GamepadState.rightBumper m) = -1.0
      /\ rightTreadForce (handleControls dt g k e) = -1.0
      /\ physicsBody (physics (handleControls dt g k e))
         = treadForcesOnBody
             (treadSpeed (GamepadState.leftTrigger m) (GamepadState.leftBumper m))
             (-1.0)
             (physicsBody (physics e))).
Proof.
  intros m.
  destruct (handleControls_treads dt g k e) as (Hl & Hr & Hb).
  fold m in Hl, Hr, Hb.
  split; intros Hbump.
  - assert (Hs : treadSpeed (GamepadState.leftTrigger m)
                   (GamepadState.leftBumper m) = -1.0)
      by (rewrite Hbump; apply treadSpeed_bumper).
    rewrite Hl, Hb, Hs. repeat split.
  - assert (Hs : treadSpeed (GamepadState.rightTrigger m)
                   (GamepadState.rightBumper m) = -1.0)
      by (rewrite Hbump; apply treadSpeed_bumper).
    rewrite Hr, Hb, Hs. repeat split.
Qed.

Lemma bumper_overrides_trigger_witness :
  let g := GamepadState.mk 0 0 0 0 0.8 0 true false false false false false in
  let k := GamepadState.getDefaultState in
  let e := create (Vec3.mk 0 1 0) in
  GamepadState.leftBumper (mergeStates g k) = true
  /\ Qlt 0 (GamepadState.leftTrigger (mergeStates g k))
  /\ leftTreadForce (handleControls 0.016 g k e) = -1.0.
Proof.
  intros g k e.
  assert (Hbump : GamepadState.leftBumper (mergeStates g k) = true)
    by reflexivity.
  destruct (bumper_overrides_trigger 0.016 g k e) as [Hleft _].
  destruct (Hleft Hbump) as (_ & Hstored & _).
  split; [exact Hbump | split; [vm_compute; reflexivity | exact Hstored]].
Defined.

End TreadFacts.

(** ** Further properties of the joint setters *)

Module JointSetterFacts.
Import MathUtils MathUtilsFacts JointState JointStateFacts.

Lemma range_strict j : jointMin j < jointMax j.
Proof. destruct j; vm_compute; reflexivity. Qed.

Lemma clamp_stuck_iff v d lo hi :
  lo < hi -> lo <= v <= hi ->
  (~ d == 0 /\ clamp (v + d) lo hi == v)
  <-> (0 < d /\ v == hi) \/ (d < 0 /\ v == lo).
Proof.
  intros Hb [Hlo Hhi]. split.
  - intros [Hd Hc]. destruct (Q_dec d 0) as [[Hneg | Hpos] | Hz].
    + right. split; [exact Hneg |]. revert Hc. minmax_cases; lra.
    + left. split; [exact Hpos |]. revert Hc. minmax_cases; lra.
    + contradiction.
  - intros [[Hd Hv] | [Hd Hv]]; (split; [lra |]); minmax_cases; lra.
Qed.

Lemma clamp_towards v d lo hi :
  lo <= hi -> lo <= v <= hi ->
  (0 <= d -> v <= clamp (v + d) lo hi <= v + d)
  /\ (d <= 0 -> v + d <= clamp (v + d) lo hi <= v).
Proof. intros Hb [Hlo Hhi]. split; intros Hd; minmax_cases; lra. Qed.

(** X1.  A joint resting on its upper bound and pushed by a positive delta
    stays on the bound and raises its at-limit flag; likewise on the lower
    bound with a negative delta; a zero delta never raises the flag. *)
Theorem pushing_against_bound_raises_flag (j : Joint) (delta : Q) (s : t) :
  (0 < delta -> jointValue j s == jointMax j ->
   jointValue j (jointSetter j delta s) == jointMax j
   /\ jointAtLimit j (jointSetter j delta s) = true)
  /\ (delta < 0 -> jointValue j s == jointMin j ->
      jointValue j (jointSetter j delta s) == jointMin j
      /\ jointAtLimit j (jointSetter j delta s) = true)
  /\ (delta == 0 -> jointAtLimit j (jointSetter j delta s) = false).
Proof.
  pose proof (range_strict j) as Hb.
  assert (Hstuck : forall v,
             jointMin j <= v <= jointMax j ->
             (0 < delta /\ v == jointMax j) \/ (delta < 0 /\ v == jointMin j) ->
             ~ delta == 0 /\ clamp (v + delta) (jointMin j) (jointMax j) == v).
  { intros v Hv Hcase. apply (clamp_stuck_iff v delta _ _ Hb Hv), Hcase. }
  split; [| split].
  - intros Hd Hv.
    destruct (Hstuck (jointValue j s)) as [Hne Hc]; [lra | left; split; assumption |].
    rewrite setter_flag, setter_value. split; [rewrite Hc; exact Hv |].
    apply andb_true_iff. split; [apply neqb_true, Hne | apply Qeq_bool_iff, Hc].
  - intros Hd Hv.
    destruct (Hstuck (jointValue j s)) as [Hne Hc]; [lra | right; split; assumption |].
    rewrite setter_flag, setter_value. split; [rewrite Hc; exact Hv |].
    apply andb_true_iff. split; [apply neqb_true, Hne | apply Qeq_bool_iff, Hc].
  - intros Hz. rewrite setter_flag. apply andb_false_iff. left.
    apply not_true_iff_false. rewrite neqb_true. tauto.
Qed.

Lemma pushing_against_bound_raises_flag_witness :
  0 < 0.3
  /\ jointValue Thumb initial == jointMax Thumb
  /\ jointAtLimit Thumb (jointSetter Thumb 0.3 initial) = true.
Proof.
  assert (Hd : 0 < 0.3) by (vm_compute; reflexivity).
  assert (Hv : jointValue Thumb initial == jointMax Thumb)
    by (vm_compute; reflexivity).
  split; [exact Hd | split; [exact Hv |]].
  exact (proj2 (proj1 (pushing_against_bound_raises_flag Thumb 0.3 initial) Hd Hv)).
Defined.

Lemma setter_moves_towards_delta_aux j delta s :
  inRange j s ->
  (0 <= delta ->
   jointValue j s <= jointValue j (jointSetter j delta s)
                  <= jointValue j s + delta)
  /\ (delta <= 0 ->
      jointValue j s + delta <= jointValue j (jointSetter j delta s)
                             <= jointValue j s).
Proof.
  intros Hin. rewrite setter_value.
  apply clamp_towards; [apply range_ordered | exact Hin].
Qed.

(** X2.  With the joint in range, a setter never moves the value against
    the delta: a non-negative delta does not lower it, a non-positive delta
    does not raise it, and a zero delta leaves it where it is. *)
Theorem setter_never_moves_against_delta (j : Joint) (delta : Q) (s : t) :
  inRange j s ->
  (0 <= delta -> jointValue j s <= jointValue j (jointSetter j delta s))
  /\ (delta <= 0 -> jointValue j (jointSetter j delta s) <= jointValue j s)
  /\ (delta == 0 -> jointValue j (jointSetter j delta s) == jointValue j s).
Proof.
  intros Hin.
  destruct (setter_moves_towards_delta_aux j delta s Hin) as [Hup Hdown].
  split; [| split].
  - intros Hd. apply Hup, Hd.
  - intros Hd. apply Hdown, Hd.
  - intros Hz. assert (H0 : 0 <= delta) by lra. specialize (Hup H0). lra.
Qed.

Lemma setter_never_moves_against_delta_witness :
  inRange Arm1 initial
  /\ 0 <= 0.5
  /\ jointValue Arm1 initial <= jointValue Arm1 (jointSetter Arm1 0.5 initial).
Proof.
  assert (Hin : inRange Arm1 initial) by (split; vm_compute; discriminate).
  assert (Hd : 0 <= 0.5) by (vm_compute; discriminate).
  split; [exact Hin | split; [exact Hd |]].
  exact (proj1 (setter_never_moves_against_delta Arm1 0.5 initial Hin) Hd).
Defined.

End JointSetterFacts.

(** ** Further properties of [createPhysics] *)

Module ConstructionFacts.
Import MathUtils MathUtilsFacts Excavator Session.

Lemma share_positive v total : 0 < v -> 0 < total -> 0 < v / total * totalMass.
Proof.
  intros Hv Ht. unfold Qdiv, totalMass.
  apply Qmult_lt_0_compat; [| reflexivity].
  apply Qmult_lt_0_compat; [exact Hv | apply Qinv_lt_0_compat, Ht].
Qed.

Lemma product_positive a b c : 0 < a -> 0 < b -> 0 < c -> 0 < a * b * c.
Proof. intros. repeat apply Qmult_lt_0_compat; assumption. Qed.

Lemma volumes_positive d :
  positiveDimensions d ->
  0 < chassisVolume d /\ 0 < bladeVolume d /\ 0 < mainBodyVolume d
  /\ 0 < arm1Part1Volume d /\ 0 < arm1Part2Volume d /\ 0 < arm2Volume d
  /\ 0 < bucketVolume d /\ 0 < thumbVolume d.
Proof.
  unfold positiveDimensions. intros Hd.
  repeat match goal with H : _ /\ _ |- _ => destruct H end.
  assert (Hseg : 0 < arm1SegmentLength d).
  { unfold arm1SegmentLength, Qdiv. apply Qmult_lt_0_compat; [assumption | reflexivity]. }
  unfold chassisVolume, bladeVolume, mainBodyVolume, arm1Part1Volume,
    arm1Part2Volume, arm2Volume, bucketVolume, thumbVolume.
  repeat split; apply product_positive;
    solve [ assumption | apply Qmult_lt_0_compat; assumption | lra ].
Qed.

(** X4.  When every dimension constant is positive, each of the eight
    bodies gets a positive mass, the chassis is created dynamic and the
    seven proxies kinematic. *)
Theorem positive_dimensions_give_positive_masses
    (d : Dimensions) (pos : Vec3.t) :
  positiveDimensions d ->
  Forall (fun b => 0 < Body.mass b) (allBodies (createPhysics d pos))
  /\ Body.type (physicsBody (createPhysics d pos)) = Body.DYNAMIC
  /\ Forall (fun b => Body.type b = Body.KINEMATIC)
            (kinematicBodies (createPhysics d pos)).*1.
Proof.
  intros Hd.
  destruct (volumes_positive d Hd) as (Hc & Hb & Hm & H11 & H12 & H2 & Hbu & Ht).
  assert (Htot : 0 < totalVolume d) by (unfold totalVolume; lra).
  split; [| split].
  - unfold allBodies, kinematicBodies, createPhysics. cbn.
    repeat constructor; apply share_positive; assumption.
  - unfold createPhysics, Body.create. cbn.
    assert (Hmass : 0 < chassisVolume d / totalVolume d * totalMass)
      by (apply share_positive; assumption).
    destruct (Qle_bool _ 0) eqn:Hle; [| reflexivity].
    apply Qle_bool_iff in Hle. lra.
  - unfold kinematicBodies, createPhysics. cbn. repeat constructor.
Qed.

Lemma positive_dimensions_give_positive_masses_witness :
  positiveDimensions DIMENSIONS
  /\ Body.type (physicsBody (createPhysics DIMENSIONS (Vec3.mk 0 1 0)))
     = Body.DYNAMIC.
Proof.
  assert (Hd : positiveDimensions DIMENSIONS)
    by (unfold positiveDimensions; repeat split; vm_compute; reflexivity).
  split; [exact Hd |].
  exact (proj1 (proj2 (positive_dimensions_give_positive_masses
                         DIMENSIONS (Vec3.mk 0 1 0) Hd))).
Defined.




End ConstructionFacts.

(** ** Further properties of the ground detector *)

Module DetectorFacts.
Import MathUtils MathUtilsFacts Excavator Session GroundContactFacts LedgerFacts.

Lemma penetrating_cons body name entries :
  penetrating ((body, name) :: entries)
  = if ltb (bottomY body) 0.01
    then (body, name) :: penetrating entries
    else penetrating entries.
Proof.
  unfold penetrating. rewrite filter_cons. cbn [fst].
  destruct (ltb (bottomY body) 0.01); case_decide; congruence.
Qed.

Lemma totalGroundForce_cons body name entries :
  totalGroundForce ((body, name) :: entries)
  = if ltb (bottomY body) 0.01
    then forceMagnitude (Math_abs (bottomY body)) + totalGroundForce entries
    else totalGroundForce entries.
Proof.
  unfold totalGroundForce. rewrite penetrating_cons.
  destruct (ltb (bottomY body) 0.01); reflexivity.
Qed.

Lemma sameButForces_refl e : sameButForces e e.
Proof. repeat split. Qed.

Lemma sameButForces_trans e1 e2 e3 :
  sameButForces e1 e2 -> sameButForces e2 e3 -> sameButForces e1 e3.
Proof.
  unfold sameButForces. cbv zeta. intros H12 H23.
  repeat match goal with H : _ /\ _ |- _ => destruct H end.
  repeat split; congruence.
Qed.

Lemma applyForce_same f r b :
  let b' := Body.applyForce f r b in
  Body.mass b' = Body.mass b
  /\ Body.type b' = Body.type b
  /\ Body.halfExtents b' = Body.halfExtents b
  /\ Body.position b' = Body.position b
  /\ Body.quaternion b' = Body.quaternion b
  /\ Body.velocity b' = Body.velocity b
  /\ Body.angularVelocity b' = Body.angularVelocity b.
Proof.
  intros b'. subst b'. unfold Body.applyForce.
  destruct (Body.type b) eqn:Hty; repeat split; cbn; congruence.
Qed.

Lemma step_sameButForces now e entry :
  sameButForces e (checkKinematicBody now e entry).
Proof.
  destruct entry as [body name]. unfold checkKinematicBody.
  destruct (ltb _ _); [| apply sameButForces_refl].
  unfold sameButForces. cbn.
  destruct (applyForce_same
              (Vec3.scale (Vec3.mk 0 1 0)
                 (forceMagnitude (Math_abs (bottomY body))))
              (Vec3.vsub (Body.position body)
                 (Body.position (physicsBody (physics e))))
              (physicsBody (physics e)))
    as (? & ? & ? & ? & ? & ? & ?).
  repeat split; assumption.
Qed.

Lemma pass_sameButForces now entries : forall e,
  sameButForces e (fold_left (checkKinematicEntry now) entries e).
Proof.
  induction entries as [| entry entries IH]; intros e; cbn [fold_left].
  - apply sameButForces_refl.
  - eapply sameButForces_trans; [| apply IH].
    unfold checkKinematicEntry. apply step_sameButForces.
Qed.

Lemma step_counters now e body name :
  let e' := checkKinematicBody now e (body, name) in
  let hit := if ltb (bottomY body) 0.01 then 1%Z else 0%Z in
  totalCollisions (ledger e') = (totalCollisions (ledger e) + hit)%Z
  /\ frameCollisions (ledger e') = (frameCollisions (ledger e) + hit)%Z.
Proof.
  unfold checkKinematicBody. destruct (ltb _ _); cbn; split; lia.
Qed.

Lemma pass_counters now entries : forall e,
  let e' := fold_left (checkKinematicEntry now) entries e in
  let hits := Z.of_nat (length (penetrating entries)) in
  totalCollisions (ledger e') = (totalCollisions (ledger e) + hits)%Z
  /\ frameCollisions (ledger e') = (frameCollisions (ledger e) + hits)%Z.
Proof.
  induction entries as [| [body name] entries IH]; intros e; cbn [fold_left].
  - cbn. split; lia.
  - cbv zeta in *. rewrite penetrating_cons.
    change (checkKinematicEntry now e (body, name))
      with (checkKinematicBody (now name) e (body, name)).
    destruct (IH (checkKinematicBody (now name) e (body, name))) as [Ht Hf].
    destruct (step_counters (now name) e body name) as [Ht1 Hf1].
    cbv zeta in Ht1, Hf1.
    rewrite Ht, Hf, Ht1, Hf1.
    destruct (ltb _ _); cbn [length]; split; lia.
Qed.

Lemma pass_events now entries : forall e k,
  let e' := fold_left (checkKinematicEntry now) entries e in
  (k ∈ (penetrating entries).*2 ->
   exists n f, events e' !! k = Some (mkCollisionData k (now k) n f true))
  /\ (k ∉ (penetrating entries).*2 -> events e' !! k = events e !! k).
Proof.
  induction entries as [| [body name] entries IH]; intros e k; cbn [fold_left].
  - cbn. split; [intros Hk; inversion Hk | reflexivity].
  - cbv zeta in *.
    change (checkKinematicEntry now e (body, name))
      with (checkKinematicBody (now name) e (body, name)).
    destruct (IH (checkKinematicBody (now name) e (body, name)) k) as [Hin Hout].
    rewrite penetrating_cons.
    destruct (decide (k ∈ (penetrating entries).*2)) as [Hk | Hk].
    + split; [intros _; apply Hin, Hk |].
      destruct (ltb _ _); cbn [fmap list_fmap]; intros Hno;
        [exfalso; apply Hno; right; exact Hk | contradiction].
    + rewrite (Hout Hk), events_checkKinematicBody.
      destruct (ltb _ _); cbn [fmap list_fmap snd].
      * split.
        -- intros Hhead. apply elem_of_cons in Hhead as [-> | ?];
             [| contradiction].
           eexists _, _. apply lookup_insert_eq.
        -- intros Hno. apply lookup_insert_ne. intros ->.
           apply Hno. left.
      * split; [contradiction | reflexivity].
Qed.

Lemma step_type now e entry :
  Body.type (physicsBody (physics (checkKinematicBody now e entry)))
  = Body.type (physicsBody (physics e)).
Proof. destruct (step_sameButForces now e entry) as (_ & H & _). exact H. Qed.

Lemma pass_force now entries : forall e,
  Body.type (physicsBody (physics e)) = Body.DYNAMIC ->
  Vec3.eqv
    (Body.force (physicsBody (physics (fold_left (checkKinematicEntry now) entries e))))
    (Vec3.vadd (Body.force (physicsBody (physics e)))
               (Vec3.mk 0 (totalGroundForce entries) 0)).
Proof.
  induction entries as [| [body name] entries IH]; intros e Hdyn; cbn [fold_left].
  - unfold Vec3.eqv, totalGroundForce. cbn. repeat split; ring.
  - rewrite totalGroundForce_cons.
    change (checkKinematicEntry now e (body, name))
      with (checkKinematicBody (now name) e (body, name)).
    destruct (ltb (bottomY body) 0.01) eqn:Hlt.
    + apply ltb_lt in Hlt.
      assert (Hdyn1 : Body.type (physicsBody (physics (checkKinematicBody (now name) e (body, name))))
                      = Body.DYNAMIC) by (rewrite step_type; exact Hdyn).
      destruct (IH _ Hdyn1) as (Hx & Hy & Hz).
      rewrite (check_hit_force (now name) e body name Hdyn Hlt) in Hx, Hy, Hz.
      unfold Vec3.eqv. rewrite Hx, Hy, Hz. cbn. repeat split; ring.
    + apply ltb_ge in Hlt. rewrite (check_clear (now name) e body name Hlt).
      apply IH, Hdyn.
Qed.

Lemma totalGroundForce_lower entries :
  COLLISION_FORCE_MULTIPLIER * inject_Z (Z.of_nat (length (penetrating entries)))
  <= totalGroundForce entries.
Proof.
  induction entries as [| [body name] entries IH].
  - vm_compute. discriminate.
  - rewrite totalGroundForce_cons, penetrating_cons.
    destruct (ltb _ _); [| exact IH].
    cbn [length]. rewrite Nat2Z.inj_succ, <- Z.add_1_r, inject_Z_plus.
    assert (Hm : COLLISION_FORCE_MULTIPLIER
                 <= forceMagnitude (Math_abs (bottomY body))).
    { unfold forceMagnitude, COLLISION_FORCE_MULTIPLIER,
        PENETRATION_FORCE_MULTIPLIER, Math_abs.
      pose proof (Qabs_nonneg (bottomY body)). lra. }
    unfold COLLISION_FORCE_MULTIPLIER in *.
    change (inject_Z 1) with 1. lra.
Qed.

(** X7.  A pass of the ground detector counts one collision, in both
    counters, per part whose tested height [bottomY] is below 0.01;
    afterwards each such part has an active entry stamped with the clock
    reading of its own iteration, and the entry of every other name is as it
    was. *)
Theorem pass_records_each_penetrating_part
    (now : string -> Z) (e : Excavator.t) :
  let e' := checkKinematicCollisions now e in
  let hits := penetrating (kinematicBodies (physics e)) in
  totalCollisions (ledger e')
    = (totalCollisions (ledger e) + Z.of_nat (length hits))%Z
  /\ frameCollisions (ledger e')
     = (frameCollisions (ledger e) + Z.of_nat (length hits))%Z
  /\ (forall k, k ∈ hits.*2 ->
        exists n f, events e' !! k = Some (mkCollisionData k (now k) n f true))
  /\ (forall k, k ∉ hits.*2 -> events e' !! k = events e !! k).
Proof.
  cbv zeta. unfold checkKinematicCollisions.
  destruct (pass_counters now (kinematicBodies (physics e)) e) as [Ht Hf].
  split; [exact Ht | split; [exact Hf | split]]; intros k Hk;
    apply (pass_events now (kinematicBodies (physics e)) e k); exact Hk.
Qed.

(** X8.  On a dynamic chassis a pass of the ground detector adds a purely
    vertical force, the sum of the magnitudes of the penetrating parts, which
    is at least the base force per penetrating part; the pass changes nothing
    of the excavator but the chassis force and torque and the ledger. *)
Theorem pass_adds_vertical_force (now : string -> Z) (e : Excavator.t) :
  Body.type (physicsBody (physics e)) = Body.DYNAMIC ->
  let e' := checkKinematicCollisions now e in
  let entries := kinematicBodies (physics e) in
  Vec3.eqv (Body.force (physicsBody (physics e')))
    (Vec3.vadd (Body.force (physicsBody (physics e)))
               (Vec3.mk 0 (totalGroundForce entries) 0))
  /\ COLLISION_FORCE_MULTIPLIER
       * inject_Z (Z.of_nat (length (penetrating entries)))
     <= totalGroundForce entries
  /\ sameButForces e e'.
Proof.
  intros Hdyn. cbv zeta. unfold checkKinematicCollisions.
  split; [apply pass_force, Hdyn | split].
  - apply totalGroundForce_lower.
  - apply pass_sameButForces.
Qed.

Lemma pass_adds_vertical_force_witness :
  let e := create (Vec3.mk 0 1 0) in
  Body.type (physicsBody (physics e)) = Body.DYNAMIC
  /\ 7000 <= Vec3.y (Body.force (physicsBody (physics
                       (checkKinematicCollisions (fun _ => 0%Z) e)))).
Proof.
  intros e.
  assert (Hdyn : Body.type (physicsBody (physics e)) = Body.DYNAMIC)
    by (vm_compute; reflexivity).
  destruct (pass_adds_vertical_force (fun _ => 0%Z) e Hdyn)
    as ((_ & Hy & _) & Hlow & _).
  split; [exact Hdyn |].
  rewrite Hy. vm_compute. discriminate.
Defined.

(** X9.  One detected ground contact adds to the dynamic chassis the
    torque of an upward force at the part's offset [r] from the chassis:
    [-r.z * F] about X, [r.x * F] about Z, and never any torque about the
    vertical axis. *)
Theorem ground_contact_torque
    (now : Z) (e : Excavator.t) (body : Body.t) (name : string) :
  Body.type (physicsBody (physics e)) = Body.DYNAMIC ->
  bottomY body < 0.01 ->
  let chassis := physicsBody (physics e) in
  let r := Vec3.vsub (Body.position body) (Body.position chassis) in
  let F := forceMagnitude (Math_abs (bottomY body)) in
  Vec3.eqv
    (Body.torque (physicsBody (physics (checkKinematicBody now e (body, name)))))
    (Vec3.vadd (Body.torque chassis)
               (Vec3.mk (- Vec3.z r * F) 0 (Vec3.x r * F))).
Proof.
  intros Hdyn Hlt. cbv zeta. rewrite check_hit by exact Hlt.
  cbv zeta. unfold withLedger, withPhysicsBody. cbn [physics physicsBody].
  destruct (applyForce_dynamic
              (Vec3.scale (Vec3.mk 0 1 0)
                 (forceMagnitude (Math_abs (bottomY body))))
              (Vec3.vsub (Body.position body)
                 (Body.position (physicsBody (physics e))))
              (physicsBody (physics e)) Hdyn) as [_ Htq].
  rewrite Htq. unfold Vec3.eqv, Vec3.vadd, Vec3.cross, Vec3.scale.
  cbn [Vec3.x Vec3.y Vec3.z]. repeat split; ring.
Qed.

Lemma ground_contact_torque_witness :
  let e := create (Vec3.mk 0 1 0) in
  let body :=
    Body.mk 1 Body.KINEMATIC (Vec3.mk 0.15 0.2 0.15) (Vec3.mk 0 0.19 2)
      Quaternion.identity Vec3.zero Vec3.zero Vec3.zero Vec3.zero in
  Body.type (physicsBody (physics e)) = Body.DYNAMIC
  /\ bottomY body < 0.01
  /\ Vec3.eqv
       (Body.torque (physicsBody (physics (checkKinematicBody 0 e (body, "Bucket"%string)))))
       (Vec3.mk (-2040) 0 0).
Proof.
  intros e body. subst body.
  assert (Hdyn : Body.type (physicsBody (physics e)) = Body.DYNAMIC)
    by (vm_compute; reflexivity).
  match goal with |- _ /\ bottomY ?b < _ /\ _ =>
    assert (Hlt : bottomY b < 0.01) by (vm_compute; reflexivity) end.
  destruct (ground_contact_torque 0 e _ "Bucket" Hdyn Hlt) as (Hx & Hy & Hz).
  split; [exact Hdyn | split; [exact Hlt |]].
  unfold Vec3.eqv. rewrite Hx, Hy, Hz. repeat split; vm_compute; reflexivity.
Defined.

Lemma fresh_all_penetrating pos :
  penetrating (kinematicBodies (physics (create pos)))
  = kinematicBodies (physics (create pos)).
Proof.
  unfold create, createPhysics, kinematicBodies. cbn [physics bladeBody
    mainBodyPhysics arm1Part1Body arm1Part2Body arm2Body bucketBody thumbBody].
  repeat (rewrite penetrating_cons;
          match goal with |- context [ltb ?a ?b] =>
            replace (ltb a b) with true by (vm_compute; reflexivity) end).
  reflexivity.
Qed.

Lemma fresh_events now pos k :
  k ∈ partNames ->
  exists n f,
    events (checkKinematicCollisions now (create pos)) !! k
    = Some (mkCollisionData k (now k) n f true).
Proof.
  intros Hk.
  apply (pass_events now (kinematicBodies (physics (create pos))) (create pos) k).
  rewrite fresh_all_penetrating. exact Hk.
Qed.

End DetectorFacts.

(** ** Invariants of the collision ledger *)

Module LedgerInvariants.
Import MathUtils MathUtilsFacts Excavator Session LedgerFacts DetectorFacts.

Lemma run_cons op ops e : run (op :: ops) e = run ops (step op e).
Proof. reflexivity. Qed.

Lemma ledger_handleControls dt g k e :
  ledger (ExcavatorSimulator.handleControls dt g k e) = ledger e.
Proof. reflexivity. Qed.

Lemma step_counters_all op e :
  (0 <= frameCollisions (ledger e) <= totalCollisions (ledger e))%Z ->
  (0 <= frameCollisions (ledger (step op e))
     <= totalCollisions (ledger (step op e)))%Z
  /\ (totalCollisions (ledger e) <= totalCollisions (ledger (step op e)))%Z.
Proof.
  intros Hinv. destruct op; cbn [step].
  - cbn. lia.
  - destruct (step_counters now e body name) as [Ht Hf]. cbv zeta in Ht, Hf.
    rewrite Ht, Hf. destruct (ltb _ _); lia.
  - destruct (pass_counters now (kinematicBodies (physics e)) e) as [Ht Hf].
    cbv zeta in Ht, Hf. unfold checkKinematicCollisions. rewrite Ht, Hf. lia.
  - unfold applyCollisionForce. destruct contact as [c |]; [| lia].
    destruct (BodyRef_eqb _ _); cbn; lia.
  - rewrite ledger_handleControls. lia.
Qed.

(** X11.  From construction on, whatever calls follow, the per-frame
    counter stays between zero and the total counter, and no call ever
    lowers the total counter. *)
Theorem collision_counters_ordered (ops : list Op) (pos : Vec3.t) (op : Op) :
  let e := run ops (create pos) in
  (0 <= frameCollisions (ledger e) <= totalCollisions (ledger e))%Z
  /\ (totalCollisions (ledger e) <= totalCollisions (ledger (step op e)))%Z.
Proof.
  cbv zeta.
  assert (Hinv : forall ops e,
             (0 <= frameCollisions (ledger e) <= totalCollisions (ledger e))%Z ->
             (0 <= frameCollisions (ledger (run ops e))
                <= totalCollisions (ledger (run ops e)))%Z).
  { clear. induction ops as [| op ops IH]; intros e He; [exact He |].
    cbn [run fold_left]. apply IH, step_counters_all, He. }
  assert (He : (0 <= frameCollisions (ledger (run ops (create pos)))
                  <= totalCollisions (ledger (run ops (create pos))))%Z).
  { apply Hinv. cbn. lia. }
  split; [exact He | apply step_counters_all, He].
Qed.

Lemma filed_insert m name now n f :
  filedByName m -> filedByName (<[name := mkCollisionData name now n f true]> m).
Proof.
  intros Hm k d. rewrite lookup_insert. case_decide as Hk.
  - intros [= <-]. exact Hk.
  - apply Hm.
Qed.

Lemma filed_age now m : filedByName m -> filedByName (age now <$> m).
Proof.
  intros Hm k d. rewrite lookup_fmap.
  destruct (m !! k) as [d0 |] eqn:Hk; [| discriminate].
  intros [= <-]. destruct (age_spec now d0) as [Hname _].
  rewrite Hname. apply (Hm k d0 Hk).
Qed.

Lemma filed_pass now entries : forall e,
  filedByName (events e) ->
  filedByName (events (fold_left (checkKinematicEntry now) entries e)).
Proof.
  induction entries as [| [body name] entries IH]; intros e He; [exact He |].
  cbn [fold_left]. apply IH. unfold checkKinematicEntry. cbn [snd].
  rewrite events_checkKinematicBody.
  destruct (ltb _ _); [apply filed_insert |]; exact He.
Qed.

Lemma filed_step op e : filedByName (events e) -> filedByName (events (step op e)).
Proof.
  intros He. destruct op; cbn [step].
  - rewrite events_resetFrameCollisions. apply filed_age, He.
  - rewrite events_checkKinematicBody.
    destruct (ltb _ _); [apply filed_insert |]; exact He.
  - apply filed_pass, He.
  - rewrite events_applyCollisionForce.
    destruct contact; [apply filed_insert |]; exact He.
  - rewrite events_handleControls. exact He.
Qed.

(** X12.  From construction on, whatever calls follow, every entry of the
    collision map carries as [partName] the key it is stored under. *)
Theorem entries_filed_under_their_name
    (ops : list Op) (pos : Vec3.t) (k : string) (d : CollisionData) :
  events (run ops (create pos)) !! k = Some d -> partName d = k.
Proof.
  assert (Hinv : forall ops e,
             filedByName (events e) -> filedByName (events (run ops e))).
  { clear. induction ops as [| op ops IH]; intros e He; [exact He |].
    cbn [run fold_left]. apply IH, filed_step, He. }
  apply (Hinv ops (create pos)).
  intros k' d'. unfold events, create. cbn. rewrite lookup_empty. discriminate.
Qed.

Lemma entries_filed_under_their_name_witness :
  exists d,
    events (run [CheckKinematicCollisions (fun _ => 3%Z); ResetFrameCollisions 200]
                (create (Vec3.mk 0 1 0))) !! "Thumb"%string = Some d
    /\ partName d = "Thumb"%string.
Proof.
  assert (Hsome : is_Some (events (run [CheckKinematicCollisions (fun _ => 3%Z);
                                        ResetFrameCollisions 200]
                                       (create (Vec3.mk 0 1 0)))
                           !! "Thumb"%string)).
  { rewrite run_cons. apply run_keeps. cbn [step].
    destruct (fresh_events (fun _ => 3%Z) (Vec3.mk 0 1 0) "Thumb"%string)
      as (n & f & Hn); [| rewrite Hn; eexists; reflexivity].
    unfold partNames. set_solver. }
  destruct Hsome as [d Hd].
  exists d. split; [exact Hd |].
  exact (entries_filed_under_their_name _ _ _ d Hd).
Defined.

End LedgerInvariants.

(** ** Ageing and size of the collision map *)

Module LedgerAgeing.
Import MathUtils MathUtilsFacts Excavator Session LedgerFacts.

Lemma age_age t1 t2 d : (t1 <= t2)%Z -> age t2 (age t1 d) = age t2 d.
Proof.
  intros Hle. unfold age.
  destruct (Z.ltb_spec 100 (t1 - timestamp d)) as [H1 | H1]; cbn [timestamp].
  - destruct (Z.ltb_spec 100 (t2 - timestamp d)); [reflexivity | lia].
  - reflexivity.
Qed.

(** X13.  Two frame-start resets in a row, the second not earlier than the
    first, leave the excavator as the second alone does; in particular a
    reset repeated at the same time changes nothing more. *)
Theorem reset_twice_is_later_reset (t1 t2 : Z) (e : Excavator.t) :
  (t1 <= t2)%Z ->
  resetFrameCollisions t2 (resetFrameCollisions t1 e) = resetFrameCollisions t2 e.
Proof.
  intros Hle. unfold resetFrameCollisions, withLedger. cbn.
  do 2 f_equal. rewrite <- map_fmap_compose.
  apply map_fmap_ext. intros k d _. cbn. apply age_age, Hle.
Qed.

Lemma reset_twice_is_later_reset_witness :
  (10 <= 250)%Z
  /\ resetFrameCollisions 250 (resetFrameCollisions 10 (create (Vec3.mk 0 1 0)))
     = resetFrameCollisions 250 (create (Vec3.mk 0 1 0)).
Proof.
  assert (Hle : (10 <= 250)%Z) by lia.
  split; [exact Hle | exact (reset_twice_is_later_reset 10 250 _ Hle)].
Defined.

Lemma kinematicBodies_names p : (kinematicBodies p).*2 = partNames.
Proof. reflexivity. Qed.

Lemma partNames_NoDup : NoDup partNames.
Proof.
  unfold partNames.
  repeat (apply NoDup_cons; split;
          [rewrite ?elem_of_cons, ?elem_of_nil; intros Hin;
           repeat destruct Hin as [Hin | Hin];
           first [contradiction | discriminate] |]).
  apply NoDup_nil_2.
Qed.

Lemma named_insert (m : gmap string CollisionData) name d k :
  name ∈ partNames ->
  (forall k, is_Some (m !! k) -> k ∈ partNames) ->
  is_Some (<[name := d]> m !! k) -> k ∈ partNames.
Proof.
  intros Hname Hm. rewrite lookup_insert_is_Some.
  intros [<- | [_ Hk]]; [exact Hname | apply Hm, Hk].
Qed.

Lemma named_pass now entries : forall e,
  Forall (fun entry => entry.2 ∈ partNames) entries ->
  (forall k, is_Some (events e !! k) -> k ∈ partNames) ->
  forall k,
    is_Some (events (fold_left (checkKinematicEntry now) entries e) !! k) ->
    k ∈ partNames.
Proof.
  induction entries as [| [body name] entries IH]; intros e Hnames He;
    [exact He |].
  inversion Hnames as [| ? ? Hname Hrest]; subst. cbn [snd] in Hname.
  cbn [fold_left]. apply IH; [exact Hrest |].
  intros k. unfold checkKinematicEntry. cbn [snd].
  rewrite events_checkKinematicBody.
  destruct (ltb _ _); [apply named_insert; assumption | apply He].
Qed.

Lemma named_step op e :
  namesPart op ->
  (forall k, is_Some (events e !! k) -> k ∈ partNames) ->
  forall k, is_Some (events (step op e) !! k) -> k ∈ partNames.
Proof.
  intros Hop He k. destruct op; cbn [step namesPart] in *.
  - rewrite events_resetFrameCollisions, lookup_fmap, fmap_is_Some. apply He.
  - rewrite events_checkKinematicBody.
    destruct (ltb _ _); [apply named_insert; assumption | apply He].
  - apply named_pass; [| exact He].
    unfold kinematicBodies, partNames. repeat constructor; cbn [snd];
      repeat first [apply list_elem_of_here | apply list_elem_of_further].
  - rewrite events_applyCollisionForce.
    destruct contact; [apply named_insert; assumption | apply He].
  - rewrite events_handleControls. apply He.
Qed.

(** X14.  When every single detector iteration and solver callback carries
    one of the seven part names, as all the calls the source makes do, the
    collision map only ever holds keys among those seven names, so it never
    has more than seven entries. *)
Theorem collision_map_bounded (ops : list Op) (pos : Vec3.t) :
  Forall namesPart ops ->
  (forall k, is_Some (events (run ops (create pos)) !! k) -> k ∈ partNames)
  /\ (size (events (run ops (create pos))) <= 7)%nat.
Proof.
  intros Hops.
  assert (Hinv : forall ops e,
             Forall namesPart ops ->
             (forall k, is_Some (events e !! k) -> k ∈ partNames) ->
             forall k, is_Some (events (run ops e) !! k) -> k ∈ partNames).
  { clear. induction ops as [| op ops IH]; intros e Hops He; [exact He |].
    inversion Hops; subst. cbn [run fold_left].
    apply IH; [assumption | apply named_step; assumption]. }
  assert (Hkeys : forall k, is_Some (events (run ops (create pos)) !! k) ->
                            k ∈ partNames).
  { apply Hinv; [exact Hops |]. intros k [d Hd]. unfold events, create in Hd.
    cbn in Hd. rewrite lookup_empty in Hd. discriminate. }
  split; [exact Hkeys |].
  rewrite <- size_dom.
  transitivity (size (list_to_set (C := gset string) partNames)).
  - apply subseteq_size. intros k Hk. apply elem_of_list_to_set, Hkeys.
    apply elem_of_dom, Hk.
  - rewrite size_list_to_set by apply partNames_NoDup. reflexivity.
Qed.

Lemma collision_map_bounded_witness :
  Forall namesPart [CheckKinematicCollisions (fun _ => 3%Z); ResetFrameCollisions 200]
  /\ (size (events (run [CheckKinematicCollisions (fun _ => 3%Z); ResetFrameCollisions 200]
                        (create (Vec3.mk 0 1 0)))) <= 7)%nat.
Proof.
  assert (Hops : Forall namesPart
                   [CheckKinematicCollisions (fun _ => 3%Z); ResetFrameCollisions 200])
    by (repeat constructor).
  split; [exact Hops |].
  exact (proj2 (collision_map_bounded _ (Vec3.mk 0 1 0) Hops)).
Defined.

End LedgerAgeing.

(** ** Further properties of propulsion and of [handleControls] *)

Module ControlFacts.
Import MathUtils MathUtilsFacts JointState JointStateFacts JointSetterFacts.
Import Excavator ExcavatorSimulator Session TreadFacts InputFacts.

(** X15.  On the dynamic chassis, equal tread speeds add no torque (the
    machine is pushed straight) and opposite tread speeds add no force (it
    turns on the spot). *)
Theorem straight_drive_and_spin (speed : Q) (e : Excavator.t) :
  Body.type (physicsBody (physics e)) = Body.DYNAMIC ->
  Vec3.eqv (Body.torque (physicsBody (physics (applyTreadForces speed speed e))))
           (Body.torque (physicsBody (physics e)))
  /\ Vec3.eqv
       (Body.force (physicsBody (physics (applyTreadForces (- speed) speed e))))
       (Body.force (physicsBody (physics e))).
Proof.
  intros Hdyn. unfold applyTreadForces, withPhysicsBody. cbn [physics physicsBody].
  rewrite !(treadForcesOnBody_dynamic _ _ _ Hdyn). cbv zeta.
  cbn [Body.torque Body.force].
  unfold Vec3.eqv, Vec3.vadd, Vec3.cross, Vec3.scale, Vec3.zero, forceStrength,
    torqueStrength.
  cbn [Vec3.x Vec3.y Vec3.z]. split; repeat split; field.
Qed.

Lemma straight_drive_and_spin_witness :
  let e := create (Vec3.mk 0 1 0) in
  Body.type (physicsBody (physics e)) = Body.DYNAMIC
  /\ Vec3.eqv (Body.torque (physicsBody (physics (applyTreadForces 1 1 e))))
              Vec3.zero.
Proof.
  intros e.
  assert (Hdyn : Body.type (physicsBody (physics e)) = Body.DYNAMIC)
    by (vm_compute; reflexivity).
  destruct (straight_drive_and_spin 1 e Hdyn) as [(Hx & Hy & Hz) _].
  split; [exact Hdyn |].
  unfold Vec3.eqv. rewrite Hx, Hy, Hz. repeat split; vm_compute; reflexivity.
Defined.

(** X16.  On a dynamic chassis whose orientation is a rotation about the
    vertical axis (quaternion components x and z zero), the tread force has
    no vertical component. *)
Theorem level_chassis_tread_force_horizontal
    (leftSpeed rightSpeed : Q) (e : Excavator.t) :
  Body.type (physicsBody (physics e)) = Body.DYNAMIC ->
  Quaternion.x (Body.quaternion (physicsBody (physics e))) == 0 ->
  Quaternion.z (Body.quaternion (physicsBody (physics e))) == 0 ->
  Vec3.y (Body.force (physicsBody (physics (applyTreadForces leftSpeed rightSpeed e))))
  == Vec3.y (Body.force (physicsBody (physics e))).
Proof.
  intros Hdyn Hx Hz. unfold applyTreadForces, withPhysicsBody.
  cbn [physics physicsBody].
  rewrite (treadForcesOnBody_dynamic _ _ _ Hdyn). cbv zeta. cbn [Body.force].
  unfold Vec3.vadd, Vec3.scale, Quaternion.vmult.
  cbn [Vec3.x Vec3.y Vec3.z]. rewrite Hx, Hz. ring.
Qed.

Lemma level_chassis_tread_force_horizontal_witness :
  let e := create (Vec3.mk 0 1 0) in
  Body.type (physicsBody (physics e)) = Body.DYNAMIC
  /\ Quaternion.x (Body.quaternion (physicsBody (physics e))) == 0
  /\ Quaternion.z (Body.quaternion (physicsBody (physics e))) == 0
  /\ Vec3.y (Body.force (physicsBody (physics (applyTreadForces 1 0.5 e)))) == 0.
Proof.
  intros e.
  assert (Hdyn : Body.type (physicsBody (physics e)) = Body.DYNAMIC)
    by (vm_compute; reflexivity).
  assert (Hx : Quaternion.x (Body.quaternion (physicsBody (physics e))) == 0)
    by (vm_compute; reflexivity).
  assert (Hz : Quaternion.z (Body.quaternion (physicsBody (physics e))) == 0)
    by (vm_compute; reflexivity).
  split; [exact Hdyn | split; [exact Hx | split; [exact Hz |]]].
  rewrite (level_chassis_tread_force_horizontal 1 0.5 e Hdyn Hx Hz).
  vm_compute. reflexivity.
Defined.

(** The joint state [handleControls] leaves: the six setter calls, in the
    order of the source. *)
Lemma handleControls_joints dt g k e :
  let m := mergeStates g k in
  joints (handleControls dt g k e)
  = setBladeHeight
      (if GamepadState.buttonY m then - (0.5 * dt)
       else if GamepadState.buttonA m then 0.5 * dt else 0)
      (setThumbAngle
         (if GamepadState.dpadUp m then - (1.0 * dt)
          else if GamepadState.dpadDown m then 1.0 * dt else 0)
         (setBucketAngle (- GamepadState.rightStickY m * (1.5 * dt))
            (setArm1Angle (GamepadState.rightStickX m * (1.0 * dt))
               (setArm2Angle (- GamepadState.leftStickY m * (1.0 * dt))
                  (setMainBodyRotation (GamepadState.leftStickX m * (2.0 * dt))
                     (joints e)))))).
Proof. reflexivity. Qed.

Lemma handleControls_joint dt g k e j :
  let m := mergeStates g k in
  jointValue j (joints (handleControls dt g k e))
  = jointValue j (jointSetter j (controlDelta dt m j) (joints e))
  /\ jointAtLimit j (joints (handleControls dt g k e))
     = jointAtLimit j (jointSetter j (controlDelta dt m j) (joints e)).
Proof. destruct j; split; reflexivity. Qed.

Lemma handleControls_yaw dt g k e :
  mainBodyRotation (joints (handleControls dt g k e))
  = mainBodyRotation (joints e)
    + GamepadState.leftStickX (mergeStates g k) * (2.0 * dt).
Proof. reflexivity. Qed.

(** X17.  For a frame time [dt >= 0] and joints in range, [handleControls]
    never drives a joint against its stick: arm1 follows the merged right
    stick X, arm2 goes against the merged left stick Y, the bucket against
    the merged right stick Y, the yaw follows the merged left stick X; and
    every limited joint ends in its range. *)
Theorem controls_follow_stick_direction
    (dt : Q) (g k : GamepadState.t) (e : Excavator.t) :
  0 <= dt ->
  (forall j, inRange j (joints e)) ->
  let m := mergeStates g k in
  let s := joints e in
  let s' := joints (handleControls dt g k e) in
  (0 <= GamepadState.rightStickX m -> arm1Angle s <= arm1Angle s')
  /\ (GamepadState.rightStickX m <= 0 -> arm1Angle s' <= arm1Angle s)
  /\ (0 <= GamepadState.leftStickY m -> arm2Angle s' <= arm2Angle s)
  /\ (GamepadState.leftStickY m <= 0 -> arm2Angle s <= arm2Angle s')
  /\ (0 <= GamepadState.rightStickY m -> bucketAngle s' <= bucketAngle s)
  /\ (GamepadState.rightStickY m <= 0 -> bucketAngle s <= bucketAngle s')
  /\ (0 <= GamepadState.leftStickX m -> mainBodyRotation s <= mainBodyRotation s')
  /\ (GamepadState.leftStickX m <= 0 -> mainBodyRotation s' <= mainBodyRotation s)
  /\ (forall j, inRange j s').
Proof.
  intros Hdt Hin. cbv zeta.
  assert (Hpos : forall a c, 0 <= a -> 0 <= c -> 0 <= a * c)
    by (intros; apply Qmult_le_0_compat; assumption).
  assert (Hneg : forall a c, a <= 0 -> 0 <= c -> a * c <= 0).
  { intros a c Ha Hc. assert (H : 0 <= (- a) * c) by (apply Hpos; lra).
    assert (E : - a * c == - (a * c)) by ring. lra. }
  destruct (handleControls_joint dt g k e Arm1) as [H1 _].
  destruct (handleControls_joint dt g k e Arm2) as [H2 _].
  destruct (handleControls_joint dt g k e Bucket) as [H3 _].
  cbv zeta in H1, H2, H3. cbn [jointValue] in H1, H2, H3.
  destruct (setter_moves_towards_delta_aux Arm1
              (controlDelta dt (mergeStates g k) Arm1) (joints e) (Hin Arm1))
    as [U1 D1].
  destruct (setter_moves_towards_delta_aux Arm2
              (controlDelta dt (mergeStates g k) Arm2) (joints e) (Hin Arm2))
    as [U2 D2].
  destruct (setter_moves_towards_delta_aux Bucket
              (controlDelta dt (mergeStates g k) Bucket) (joints e) (Hin Bucket))
    as [U3 D3].
  cbn [jointValue jointSetter] in U1, D1, U2, D2, U3, D3.
  unfold controlDelta in *.
  rewrite H1, H2, H3, handleControls_yaw.
  repeat split.
  - intros Hs. apply U1, Hpos; [exact Hs | lra].
  - intros Hs. apply D1, Hneg; [exact Hs | lra].
  - intros Hs. apply D2, Hneg; [lra | lra].
  - intros Hs. apply U2, Hpos; [lra | lra].
  - intros Hs. apply D3, Hneg; [lra | lra].
  - intros Hs. apply U3, Hpos; [lra | lra].
  - intros Hs.
    assert (H := Hpos (GamepadState.leftStickX (mergeStates g k)) (2.0 * dt) Hs).
    lra.
  - intros Hs.
    assert (H := Hneg (GamepadState.leftStickX (mergeStates g k)) (2.0 * dt) Hs).
    lra.
  - destruct (handleControls_joint dt g k e j) as [Hv _]. cbv zeta in Hv.
    rewrite Hv, setter_value. apply clamp_in_range, range_ordered.
  - destruct (handleControls_joint dt g k e j) as [Hv _]. cbv zeta in Hv.
    rewrite Hv, setter_value. apply clamp_in_range, range_ordered.
Qed.

Lemma controls_follow_stick_direction_witness :
  let g := GamepadState.mk 0 0 1 0 0 0 false false false false false false in
  let k := GamepadState.getDefaultState in
  let e := create (Vec3.mk 0 1 0) in
  0 <= 0.1
  /\ (forall j, inRange j (joints e))
  /\ 0 <= GamepadState.rightStickX (mergeStates g k)
  /\ arm1Angle (joints e) <= arm1Angle (joints (handleControls 0.1 g k e)).
Proof.
  intros g k e.
  assert (Hdt : 0 <= 0.1) by (vm_compute; discriminate).
  assert (Hin : forall j, inRange j (joints e)) by apply initial_inRange.
  assert (Hs : 0 <= GamepadState.rightStickX (mergeStates g k))
    by (vm_compute; discriminate).
  split; [exact Hdt | split; [exact Hin | split; [exact Hs |]]].
  exact (proj1 (controls_follow_stick_direction 0.1 g k e Hdt Hin) Hs).
Defined.

End ControlFacts.

(** ** Neutral input, button priority and tread range *)

Module ControlEdgeFacts.
Import MathUtils MathUtilsFacts JointState JointStateFacts JointSetterFacts.
Import Excavator ExcavatorSimulator Session TreadFacts InputFacts ControlFacts.

Lemma neutral_delta dt m j : neutral m -> controlDelta dt m j == 0.
Proof.
  unfold neutral. intros (Hlx & Hly & Hrx & Hry & _ & _ & _ & _ & Hup & Hdown & HY & HA).
  destruct j; unfold controlDelta.
  - rewrite Hrx. ring.
  - rewrite Hly. ring.
  - rewrite Hry. ring.
  - rewrite Hup, Hdown. reflexivity.
  - rewrite HY, HA. reflexivity.
Qed.

Lemma treadSpeed_released trigger : trigger == 0 -> treadSpeed trigger false = 0.
Proof.
  intros Ht. unfold treadSpeed. destruct (ltb 0 trigger) eqn:Hlt; [| reflexivity].
  apply ltb_lt in Hlt. lra.
Qed.

Lemma treadForcesOnBody_zero b :
  Vec3.eqv (Body.force (treadForcesOnBody 0 0 b)) (Body.force b)
  /\ Vec3.eqv (Body.torque (treadForcesOnBody 0 0 b)) (Body.torque b).
Proof.
  destruct (Body.type b) eqn:Hty.
  - rewrite (treadForcesOnBody_dynamic _ _ _ Hty). cbv zeta.
    cbn [Body.force Body.torque].
    unfold Vec3.eqv, Vec3.vadd, Vec3.cross, Vec3.scale, Vec3.zero,
      forceStrength, torqueStrength.
    cbn [Vec3.x Vec3.y Vec3.z]. split; repeat split; field.
  - unfold treadForcesOnBody, Body.applyTorque, Body.applyForce.
    rewrite !Hty. split; repeat split; reflexivity.
  - unfold treadForcesOnBody, Body.applyTorque, Body.applyForce.
    rewrite !Hty. split; repeat split; reflexivity.
Qed.

(** X18.  With a neutral merged input (sticks centred, triggers released,
    no button) and the joints in range, [handleControls] keeps every joint
    value and the yaw, clears all five at-limit flags, stores zero tread
    forces and adds neither force nor torque to the chassis, whatever the
    frame time. *)
Theorem neutral_input_holds_still
    (dt : Q) (g k : GamepadState.t) (e : Excavator.t) :
  neutral (mergeStates g k) ->
  (forall j, inRange j (joints e)) ->
  let e' := handleControls dt g k e in
  (forall j, jointValue j (joints e') == jointValue j (joints e)
             /\ jointAtLimit j (joints e') = false)
  /\ mainBodyRotation (joints e') == mainBodyRotation (joints e)
  /\ leftTreadForce e' = 0
  /\ rightTreadForce e' = 0
  /\ Vec3.eqv (Body.force (physicsBody (physics e')))
              (Body.force (physicsBody (physics e)))
  /\ Vec3.eqv (Body.torque (physicsBody (physics e')))
              (Body.torque (physicsBody (physics e))).
Proof.
  intros Hn Hin. cbv zeta.
  destruct (handleControls_treads dt g k e) as (Hl & Hr & Hb). cbv zeta in Hl, Hr, Hb.
  pose proof Hn as (Hlx & _ & _ & _ & Hlt & Hrt & Hlb & Hrb & _).
  rewrite Hlb, (treadSpeed_released _ Hlt) in Hl, Hb.
  rewrite Hrb, (treadSpeed_released _ Hrt) in Hr, Hb.
  split; [| split; [| split; [exact Hl | split; [exact Hr |]]]].
  - intros j. destruct (handleControls_joint dt g k e j) as [Hv Hf].
    cbv zeta in Hv, Hf. rewrite Hv, Hf.
    pose proof (neutral_delta dt _ j Hn) as Hd.
    split.
    + destruct (setter_moves_towards_delta_aux j
                  (controlDelta dt (mergeStates g k) j) (joints e) (Hin j))
        as [Hup Hdown].
      assert (H0 : 0 <= controlDelta dt (mergeStates g k) j) by lra.
      specialize (Hup H0). lra.
    + rewrite setter_flag. apply andb_false_iff. left.
      apply not_true_iff_false. rewrite neqb_true. tauto.
  - rewrite handleControls_yaw, Hlx. ring.
  - rewrite Hb. apply treadForcesOnBody_zero.
Qed.

Lemma neutral_input_holds_still_witness :
  let g := GamepadState.getDefaultState in
  let e := create (Vec3.mk 0 1 0) in
  neutral (mergeStates g g)
  /\ (forall j, inRange j (joints e))
  /\ leftTreadForce (handleControls 0.016 g g e) = 0.
Proof.
  intros g e.
  assert (Hn : neutral (mergeStates g g)).
  { unfold neutral. repeat split; vm_compute; reflexivity. }
  assert (Hin : forall j, inRange j (joints e)) by apply initial_inRange.
  split; [exact Hn | split; [exact Hin |]].
  destruct (neutral_input_holds_still 0.016 g g e Hn Hin) as (_ & _ & Hl & _).
  exact Hl.
Defined.

(** X19.  When the merged D-pad up is pressed the thumb is driven by
    [-1.0 * dt] whether or not D-pad down is pressed too, and when the merged
    Y button is pressed the blade is driven by [-0.5 * dt] whether or not A is
    pressed too; with [dt >= 0] and the joints in range neither then moves
    upward in value. *)
Theorem up_and_raise_take_priority
    (dt : Q) (g k : GamepadState.t) (e : Excavator.t) :
  0 <= dt ->
  (forall j, inRange j (joints e)) ->
  let m := mergeStates g k in
  let e' := handleControls dt g k e in
  (GamepadState.dpadUp m = true ->
   thumbAngle (joints e')
   = clamp (thumbAngle (joints e) + - (1.0 * dt)) THUMB_MIN_ANGLE THUMB_MAX_ANGLE
   /\ thumbAngle (joints e') <= thumbAngle (joints e))
  /\ (GamepadState.buttonY m = true ->
      bladeHeight (joints e')
      = clamp (bladeHeight (joints e) + - (0.5 * dt))
              BLADE_MIN_HEIGHT BLADE_MAX_HEIGHT
      /\ bladeHeight (joints e') <= bladeHeight (joints e)).
Proof.
  intros Hdt Hin. cbv zeta. split; intros Hpressed.
  - destruct (handleControls_joint dt g k e Thumb) as [Hv _]. cbv zeta in Hv.
    cbn [jointValue] in Hv. unfold controlDelta in Hv. rewrite Hpressed in Hv.
    split; [exact Hv |].
    rewrite Hv.
    destruct (clamp_towards (thumbAngle (joints e)) (- (1.0 * dt))
                THUMB_MIN_ANGLE THUMB_MAX_ANGLE (range_ordered Thumb) (Hin Thumb))
      as [_ Hdown].
    apply Hdown. lra.
  - destruct (handleControls_joint dt g k e Blade) as [Hv _]. cbv zeta in Hv.
    cbn [jointValue] in Hv. unfold controlDelta in Hv. rewrite Hpressed in Hv.
    split; [exact Hv |].
    rewrite Hv.
    destruct (clamp_towards (bladeHeight (joints e)) (- (0.5 * dt))
                BLADE_MIN_HEIGHT BLADE_MAX_HEIGHT (range_ordered Blade) (Hin Blade))
      as [_ Hdown].
    apply Hdown. lra.
Qed.

Lemma up_and_raise_take_priority_witness :
  let g := GamepadState.mk 0 0 0 0 0 0 false false true true false false in
  let k := GamepadState.getDefaultState in
  let e := create (Vec3.mk 0 1 0) in
  0 <= 0.1
  /\ (forall j, inRange j (joints e))
  /\ GamepadState.dpadUp (mergeStates g k) = true
  /\ GamepadState.dpadDown (mergeStates g k) = true
  /\ thumbAngle (joints (handleControls 0.1 g k e)) == -0.3.
Proof.
  intros g k e.
  assert (Hdt : 0 <= 0.1) by (vm_compute; discriminate).
  assert (Hin : forall j, inRange j (joints e)) by apply initial_inRange.
  assert (Hup : GamepadState.dpadUp (mergeStates g k) = true) by reflexivity.
  split; [exact Hdt | split; [exact Hin | split; [exact Hup | split; [reflexivity |]]]].
  destruct (up_and_raise_take_priority 0.1 g k e Hdt Hin) as [Hthumb _].
  destruct (Hthumb Hup) as [Hv _]. rewrite Hv. vm_compute. reflexivity.
Defined.

Lemma treadSpeed_range trigger bumper :
  trigger <= 1 ->
  -1 <= treadSpeed trigger bumper <= 1
  /\ (bumper = false -> 0 <= treadSpeed trigger bumper).
Proof.
  intros Ht. unfold treadSpeed.
  destruct bumper; [split; [lra | discriminate] |].
  destruct (ltb 0 trigger) eqn:Hlt.
  - apply ltb_lt in Hlt. split; [lra | intros _; lra].
  - split; [lra | intros _; lra].
Qed.

(** X20.  When the triggers of both controllers are at most 1, the tread
    speeds [handleControls] stores lie in [-1, 1], and a side whose bumper
    is released never gets a negative speed, even for a negative trigger
    reading. *)
Theorem stored_tread_speeds_normalised
    (dt : Q) (g k : GamepadState.t) (e : Excavator.t) :
  GamepadState.leftTrigger g <= 1 -> GamepadState.leftTrigger k <= 1 ->
  GamepadState.rightTrigger g <= 1 -> GamepadState.rightTrigger k <= 1 ->
  let m := mergeStates g k in
  let e' := handleControls dt g k e in
  -1 <= leftTreadForce e' <= 1
  /\ -1 <= rightTreadForce e' <= 1
  /\ (GamepadState.leftBumper m = false -> 0 <= leftTreadForce e')
  /\ (GamepadState.rightBumper m = false -> 0 <= rightTreadForce e').
Proof.
  intros Hlg Hlk Hrg Hrk. cbv zeta.
  destruct (handleControls_treads dt g k e) as (Hl & Hr & _). cbv zeta in Hl, Hr.
  rewrite Hl, Hr.
  assert (Hlm : GamepadState.leftTrigger (mergeStates g k) <= 1).
  { cbn [mergeStates GamepadState.leftTrigger]. minmax_cases; lra. }
  assert (Hrm : GamepadState.rightTrigger (mergeStates g k) <= 1).
  { cbn [mergeStates GamepadState.rightTrigger]. minmax_cases; lra. }
  destruct (treadSpeed_range _ (GamepadState.leftBumper (mergeStates g k)) Hlm)
    as [Hl1 Hl2].
  destruct (treadSpeed_range _ (GamepadState.rightBumper (mergeStates g k)) Hrm)
    as [Hr1 Hr2].
  repeat split; tauto.
Qed.

Lemma stored_tread_speeds_normalised_witness :
  let g := GamepadState.mk 0 0 0 0 (-0.4) 0.7 false false false false false false in
  let k := GamepadState.getDefaultState in
  let e := create (Vec3.mk 0 1 0) in
  GamepadState.leftTrigger g <= 1 /\ GamepadState.leftTrigger k <= 1
  /\ GamepadState.rightTrigger g <= 1 /\ GamepadState.rightTrigger k <= 1
  /\ -1 <= leftTreadForce (handleControls 0.016 g k e) <= 1.
Proof.
  intros g k e.
  assert (H1 : GamepadState.leftTrigger g <= 1) by (vm_compute; discriminate).
  assert (H2 : GamepadState.leftTrigger k <= 1) by (vm_compute; discriminate).
  assert (H3 : GamepadState.rightTrigger g <= 1) by (vm_compute; discriminate).
  assert (H4 : GamepadState.rightTrigger k <= 1) by (vm_compute; discriminate).
  split; [exact H1 | split; [exact H2 | split; [exact H3 | split; [exact H4 |]]]].
  exact (proj1 (stored_tread_speeds_normalised 0.016 g k e H1 H2 H3 H4)).
Defined.

End ControlEdgeFacts.

(** ** The keyboard controller *)

Module KeyboardFacts.
Import MathUtils MathUtilsFacts KeyboardController.

Lemma has_true key keys : has key keys = true <-> key ∈ keys.
Proof. unfold has. apply bool_decide_eq_true. Qed.

Lemma has_empty key : has key ∅ = false.
Proof. unfold has. apply bool_decide_eq_false. apply not_elem_of_empty. Qed.

(** X21.  When two opposing keys are held together the one tested later
    wins: D over A, S over W, ArrowDown over ArrowUp and ArrowRight over
    ArrowLeft. *)
Theorem opposing_keys_later_test_wins (keys : gset string) :
  ("d"%string ∈ keys -> GamepadState.leftStickX (stateOfKeys keys) == -1)
  /\ ("s"%string ∈ keys -> GamepadState.leftStickY (stateOfKeys keys) == -1)
  /\ ("arrowdown"%string ∈ keys ->
      GamepadState.rightStickX (stateOfKeys keys) == -1)
  /\ ("arrowright"%string ∈ keys ->
      GamepadState.rightStickY (stateOfKeys keys) == 1).
Proof.
  repeat split; intros Hk; apply has_true in Hk;
    unfold stateOfKeys; cbv zeta;
    cbn [GamepadState.leftStickX GamepadState.leftStickY
         GamepadState.rightStickX GamepadState.rightStickY];
    rewrite Hk; vm_compute; reflexivity.
Qed.

Lemma opposing_keys_later_test_wins_witness :
  "d"%string ∈ ({["a"%string; "d"%string]} : gset string)
  /\ GamepadState.leftStickX (stateOfKeys {["a"%string; "d"%string]}) == -1.
Proof.
  assert (Hd : "d"%string ∈ ({["a"%string; "d"%string]} : gset string))
    by (apply elem_of_union; right; apply elem_of_singleton; reflexivity).
  split; [exact Hd |].
  exact (proj1 (opposing_keys_later_test_wins _) Hd).
Defined.

(** X22.  Whatever keys are held, the keyboard state is normalised: every
    stick axis is -1, 0 or 1 and every trigger is 0 or 1. *)
Theorem keyboard_state_normalised (keys : gset string) :
  let s := stateOfKeys keys in
  let unit_axis x := x == -1 \/ x == 0 \/ x == 1 in
  unit_axis (GamepadState.leftStickX s)
  /\ unit_axis (GamepadState.leftStickY s)
  /\ unit_axis (GamepadState.rightStickX s)
  /\ unit_axis (GamepadState.rightStickY s)
  /\ (GamepadState.leftTrigger s == 0 \/ GamepadState.leftTrigger s == 1)
  /\ (GamepadState.rightTrigger s == 0 \/ GamepadState.rightTrigger s == 1).
Proof.
  cbv zeta. unfold stateOfKeys.
  cbn [GamepadState.leftStickX GamepadState.leftStickY
       GamepadState.rightStickX GamepadState.rightStickY
       GamepadState.leftTrigger GamepadState.rightTrigger].
  repeat split;
    repeat match goal with |- context [has ?key keys] =>
             destruct (has key keys) end;
    solve [ left; vm_compute; reflexivity
          | right; left; vm_compute; reflexivity
          | right; right; vm_compute; reflexivity
          | right; vm_compute; reflexivity ].
Qed.

(** X23.  Losing focus releases every key: after [blur] the next
    [update()] yields the default state.  Releasing a key that was not held
    before it was pressed restores the set of held keys, and a repeated
    [keydown] of a held key changes nothing. *)
Theorem blur_and_release_restore (key : string) (c : KeyboardController.t) :
  getState (update (onBlur c)) = GamepadState.getDefaultState
  /\ (key ∉ pressedKeys c ->
      pressedKeys (onKeyUp key (onKeyDown key c)) = pressedKeys c)
  /\ onKeyDown key (onKeyDown key c) = onKeyDown key c.
Proof.
  split; [| split].
  - unfold getState, update, onBlur, stateOfKeys. cbn [state pressedKeys].
    rewrite !has_empty. reflexivity.
  - intros Hk. unfold onKeyUp, onKeyDown. cbn [pressedKeys].
    apply set_eq. intros x.
    rewrite elem_of_difference, elem_of_union, elem_of_singleton. split.
    + intros [[-> | Hx] Hne]; [contradiction | exact Hx].
    + intros Hx. split; [right; exact Hx | intros ->; contradiction].
  - unfold onKeyDown. cbn [pressedKeys state]. f_equal.
    apply set_eq. intros x. rewrite !elem_of_union. tauto.
Qed.

Lemma blur_and_release_restore_witness :
  ("w"%string ∉ pressedKeys KeyboardController.create)
  /\ pressedKeys (onKeyUp "w" (onKeyDown "w" KeyboardController.create))
     = pressedKeys KeyboardController.create.
Proof.
  assert (Hk : "w"%string ∉ pressedKeys KeyboardController.create)
    by apply not_elem_of_empty.
  split; [exact Hk |].
  exact (proj1 (proj2 (blur_and_release_restore "w" KeyboardController.create)) Hk).
Defined.

End KeyboardFacts.

(** ** The gamepad controller *)

Module GamepadFacts.
Import MathUtils MathUtilsFacts GamepadController ExcavatorSimulator Session.

Lemma applyDeadzone_cases v :
  (Qabs v < deadzone /\ applyDeadzone v = 0)
  \/ (deadzone <= Qabs v /\ applyDeadzone v = v).
Proof.
  unfold applyDeadzone, Math_abs. destruct (ltb (Qabs v) deadzone) eqn:Hlt.
  - left. split; [apply ltb_lt, Hlt | reflexivity].
  - right. split; [apply ltb_ge, Hlt | reflexivity].
Qed.

Lemma applyDeadzone_zero : applyDeadzone 0 = 0.
Proof. reflexivity. Qed.

(** X24.  The deadzone filter returns either 0 or a value of magnitude at
    least 0.15, never a larger magnitude than its input; it is idempotent
    and odd. *)
Theorem deadzone_filter (v : Q) :
  (applyDeadzone v == 0 \/ 0.15 <= Qabs (applyDeadzone v))
  /\ Qabs (applyDeadzone v) <= Qabs v
  /\ applyDeadzone (applyDeadzone v) == applyDeadzone v
  /\ applyDeadzone (- v) == - applyDeadzone v.
Proof.
  destruct (applyDeadzone_cases v) as [[Hlt Hv] | [Hge Hv]].
  - rewrite Hv, applyDeadzone_zero.
    split; [left; reflexivity | split; [apply Qabs_nonneg | split; [reflexivity |]]].
    destruct (applyDeadzone_cases (- v)) as [[_ Hn] | [Hge Hn]]; rewrite Hn.
    + reflexivity.
    + rewrite Qabs_opp in Hge. lra.
  - rewrite Hv. split; [right; exact Hge | split; [apply Qle_refl | split]].
    + rewrite Hv. reflexivity.
    + destruct (applyDeadzone_cases (- v)) as [[Hlt Hn] | [_ Hn]]; rewrite Hn.
      * rewrite Qabs_opp in Hlt. lra.
      * reflexivity.
Qed.

Lemma axis_in_range gp i :
  Forall (fun a => -1 <= a <= 1) (axes gp) -> -1 <= axis gp i <= 1.
Proof.
  intros Hall. unfold axis. destruct (axes gp !! i) as [a |] eqn:Ha; cbn.
  - apply (proj1 (Forall_lookup _ _) Hall i a Ha).
  - lra.
Qed.

Lemma buttonValue_in_range gp i :
  Forall (fun b => 0 <= value b <= 1) (buttons gp) -> 0 <= buttonValue gp i <= 1.
Proof.
  intros Hall. unfold buttonValue. destruct (buttons gp !! i) as [b |] eqn:Hb; cbn.
  - apply (proj1 (Forall_lookup _ _) Hall i b Hb).
  - lra.
Qed.

Lemma applyDeadzone_in_range v : -1 <= v <= 1 -> -1 <= applyDeadzone v <= 1.
Proof.
  intros Hv. destruct (applyDeadzone_cases v) as [[_ ->] | [_ ->]]; lra.
Qed.

Lemma axisTrigger_in_range a : -1 <= a <= 1 -> 0 <= Math_max 0 (a + 1) / 2 <= 1.
Proof.
  intros Ha. unfold Math_max.
  assert (Hhalf : forall x, x / 2 == x * 0.5) by (intros x; field).
  rewrite Hhalf.
  destruct (Q.max_spec 0 (a + 1)) as [[? H] | [? H]]; rewrite H; lra.
Qed.

(** X25.  For a pad whose axes all read within [-1, 1] and whose button
    values all read within [0, 1], the state [update()] builds has its four
    stick axes within [-1, 1] and both triggers within [0, 1], on the
    axis-trigger path as on the button-trigger path. *)
Theorem gamepad_state_normalised (gp : Gamepad) :
  Forall (fun a => -1 <= a <= 1) (axes gp) ->
  Forall (fun b => 0 <= value b <= 1) (buttons gp) ->
  let s := stateOfGamepad gp in
  -1 <= GamepadState.leftStickX s <= 1
  /\ -1 <= GamepadState.leftStickY s <= 1
  /\ -1 <= GamepadState.rightStickX s <= 1
  /\ -1 <= GamepadState.rightStickY s <= 1
  /\ 0 <= GamepadState.leftTrigger s <= 1
  /\ 0 <= GamepadState.rightTrigger s <= 1.
Proof.
  intros Haxes Hbuttons. cbv zeta. unfold stateOfGamepad.
  cbn [GamepadState.leftStickX GamepadState.leftStickY
       GamepadState.rightStickX GamepadState.rightStickY
       GamepadState.leftTrigger GamepadState.rightTrigger].
  pose proof (applyDeadzone_in_range _ (axis_in_range gp 0 Haxes)) as H0.
  pose proof (applyDeadzone_in_range _ (axis_in_range gp 1 Haxes)) as H1.
  pose proof (applyDeadzone_in_range _ (axis_in_range gp 2 Haxes)) as H2.
  pose proof (applyDeadzone_in_range _ (axis_in_range gp 3 Haxes)) as H3.
  split; [lra | split; [exact H1 | split; [exact H3 | split; [exact H2 |]]]].
  destruct (6 <? length (axes gp))%nat.
  - split; apply axisTrigger_in_range, axis_in_range, Haxes.
  - split; apply buttonValue_in_range, Hbuttons.
Qed.

Lemma gamepad_state_normalised_witness :
  let gp := mkGamepad [0.5; -1; 0.1; 1] [mkButton true 1] in
  Forall (fun a => -1 <= a <= 1) (axes gp)
  /\ Forall (fun b => 0 <= value b <= 1) (buttons gp)
  /\ -1 <= GamepadState.leftStickX (stateOfGamepad gp) <= 1.
Proof.
  intros gp.
  assert (Ha : Forall (fun a => -1 <= a <= 1) (axes gp))
    by (repeat constructor; vm_compute; discriminate).
  assert (Hb : Forall (fun b => 0 <= value b <= 1) (buttons gp))
    by (repeat constructor; vm_compute; discriminate).
  split; [exact Ha | split; [exact Hb |]].
  exact (proj1 (gamepad_state_normalised gp Ha Hb)).
Defined.

(** X26.  A pad that reports exactly seven axes takes the axis-trigger path
    with no eighth axis to read: its right trigger is 0.5 whatever the pad
    reports. *)
Theorem seven_axes_right_trigger_half (gp : Gamepad) :
  length (axes gp) = 7%nat ->
  GamepadState.rightTrigger (stateOfGamepad gp) == 0.5.
Proof.
  intros Hlen. unfold stateOfGamepad. cbn [GamepadState.rightTrigger].
  rewrite Hlen. cbn [Nat.ltb Nat.leb].
  unfold axis. rewrite (proj2 (lookup_ge_None (axes gp) 7)) by lia.
  vm_compute. reflexivity.
Qed.

Lemma seven_axes_right_trigger_half_witness :
  let gp := mkGamepad [0; 0; 0; 0; 0; 0; -1] [] in
  length (axes gp) = 7%nat
  /\ GamepadState.rightTrigger (stateOfGamepad gp) == 0.5.
Proof.
  intros gp.
  assert (Hlen : length (axes gp) = 7%nat) by reflexivity.
  split; [exact Hlen | exact (seven_axes_right_trigger_half gp Hlen)].
Defined.

(** X27.  With no pad stored and none polled, [update()] leaves the
    controller as it is; after a disconnect the state is the default one and
    stays so until a pad is polled again. *)
Theorem update_without_pad (c : GamepadController.t) :
  (gamepad c = None -> update None c = c)
  /\ getState (update None (onDisconnected c)) = GamepadState.getDefaultState
  /\ isConnected (onDisconnected c) = false.
Proof.
  split; [| split; reflexivity].
  intros Hnone. destruct c as [pad st conn]. cbn in Hnone. subst pad. reflexivity.
Qed.

Lemma update_without_pad_witness :
  gamepad GamepadController.create = None
  /\ update None GamepadController.create = GamepadController.create.
Proof.
  assert (Hnone : gamepad GamepadController.create = None) by reflexivity.
  split; [exact Hnone |].
  exact (proj1 (update_without_pad GamepadController.create) Hnone).
Defined.

Lemma resting_stick v : Qabs v < deadzone -> applyDeadzone v = 0.
Proof.
  intros Hlt. destruct (applyDeadzone_cases v) as [[_ H] | [Hge _]];
    [exact H | lra].
Qed.

Lemma released_button gp i :
  Forall (fun b => pressed b = false /\ value b == 0) (buttons gp) ->
  buttonPressed gp i = false /\ buttonValue gp i == 0.
Proof.
  intros Hall. unfold buttonPressed, buttonValue.
  destruct (buttons gp !! i) as [b |] eqn:Hb; cbn.
  - apply (proj1 (Forall_lookup _ _) Hall i b Hb).
  - split; reflexivity.
Qed.

(** X28.  A pad at rest -- its four stick axes inside the deadzone, at most
    six axes so that the triggers are read from buttons, every button
    released -- together with a keyboard with no key held merges to a
    neutral input: stick drift below the deadzone never reaches the joints. *)
Theorem resting_pad_merges_to_neutral (gp : Gamepad) :
  Qabs (axis gp 0) < deadzone -> Qabs (axis gp 1) < deadzone ->
  Qabs (axis gp 2) < deadzone -> Qabs (axis gp 3) < deadzone ->
  (length (axes gp) <= 6)%nat ->
  Forall (fun b => pressed b = false /\ value b == 0) (buttons gp) ->
  neutral (mergeStates (stateOfGamepad gp) (KeyboardController.stateOfKeys ∅)).
Proof.
  intros H0 H1 H2 H3 Hlen Hbuttons.
  assert (Hpath : (6 <? length (axes gp))%nat = false) by (apply Nat.ltb_ge, Hlen).
  unfold neutral, mergeStates, stateOfGamepad, KeyboardController.stateOfKeys.
  cbv zeta.
  cbn [GamepadState.leftStickX GamepadState.leftStickY GamepadState.rightStickX
       GamepadState.rightStickY GamepadState.leftTrigger
       GamepadState.rightTrigger GamepadState.leftBumper
       GamepadState.rightBumper GamepadState.dpadUp GamepadState.dpadDown
       GamepadState.buttonY GamepadState.buttonA].
  rewrite !KeyboardFacts.has_empty, Hpath.
  rewrite (resting_stick _ H0), (resting_stick _ H1), (resting_stick _ H2),
    (resting_stick _ H3).
  destruct (released_button gp 6 Hbuttons) as [_ Hv6].
  destruct (released_button gp 7 Hbuttons) as [_ Hv7].
  destruct (released_button gp 4 Hbuttons) as [Hp4 _].
  destruct (released_button gp 5 Hbuttons) as [Hp5 _].
  destruct (released_button gp 12 Hbuttons) as [Hp12 _].
  destruct (released_button gp 13 Hbuttons) as [Hp13 _].
  destruct (released_button gp 3 Hbuttons) as [Hp3 _].
  destruct (released_button gp 0 Hbuttons) as [Hp0 _].
  rewrite Hv6, Hv7, Hp4, Hp5, Hp12, Hp13, Hp3, Hp0.
  repeat split; vm_compute; reflexivity.
Qed.

Lemma resting_pad_merges_to_neutral_witness :
  let gp := mkGamepad [0.1; -0.05; 0; 0.14] [mkButton false 0] in
  Qabs (axis gp 0) < deadzone /\ Qabs (axis gp 1) < deadzone
  /\ Qabs (axis gp 2) < deadzone /\ Qabs (axis gp 3) < deadzone
  /\ (length (axes gp) <= 6)%nat
  /\ Forall (fun b => pressed b = false /\ value b == 0) (buttons gp)
  /\ neutral (mergeStates (stateOfGamepad gp) (KeyboardController.stateOfKeys ∅)).
Proof.
  intros gp.
  assert (H0 : Qabs (axis gp 0) < deadzone) by (vm_compute; reflexivity).
  assert (H1 : Qabs (axis gp 1) < deadzone) by (vm_compute; reflexivity).
  assert (H2 : Qabs (axis gp 2) < deadzone) by (vm_compute; reflexivity).
  assert (H3 : Qabs (axis gp 3) < deadzone) by (vm_compute; reflexivity).
  assert (Hlen : (length (axes gp) <= 6)%nat) by (cbn; lia).
  assert (Hb : Forall (fun b => pressed b = false /\ value b == 0) (buttons gp))
    by (repeat constructor).
  split; [exact H0 | split; [exact H1 | split; [exact H2 | split; [exact H3 |
    split; [exact Hlen | split; [exact Hb |]]]]]].
  exact (resting_pad_merges_to_neutral gp H0 H1 H2 H3 Hlen Hb).
Defined.

End GamepadFacts.

(** ** The camera orbit controls *)

Module CameraFacts.
Import MathUtils MathUtilsFacts ExcavatorSimulator.

Lemma initial_inLimits : cameraInLimits initialCamera.
Proof. unfold cameraInLimits. repeat split; vm_compute; discriminate. Qed.

Lemma event_inLimits ev c : cameraInLimits c -> cameraInLimits (onMouseEvent ev c).
Proof.
  intros [He Hd]. destruct ev; cbn [onMouseEvent].
  - split; assumption.
  - unfold onMouseMove. destruct (isDragging c); cbn [negb]; [| split; assumption].
    split; [| exact Hd]. cbn [cameraElevation].
    apply clamp_in_range. vm_compute. discriminate.
  - split; assumption.
  - split; assumption.
  - split; [exact He |]. cbn [onWheel cameraDistance].
    apply clamp_in_range. vm_compute. discriminate.
Qed.

(** X29.  Whatever mouse events arrive, in whatever order, the camera
    elevation stays within [0.1, pi/2 - 0.1] and the camera distance within
    [3, 20]. *)
Theorem camera_stays_in_limits (evs : list MouseEvent) :
  cameraInLimits (onMouseEvents evs initialCamera).
Proof.
  assert (Hinv : forall evs c,
             cameraInLimits c -> cameraInLimits (onMouseEvents evs c)).
  { clear. induction evs as [| ev evs IH]; intros c Hc; [exact Hc |].
    cbn [onMouseEvents fold_left]. apply IH, event_inLimits, Hc. }
  apply Hinv, initial_inLimits.
Qed.

(** X30.  While no button is held -- from the start, or after [mouseup] or
    [mouseleave] -- pointer movement does not change the camera: the angle,
    the elevation and the remembered pointer position stay as they are. *)
Theorem moves_without_drag_do_nothing (points : list (Q * Q)) (c : Camera) :
  isDragging c = false ->
  onMouseEvents (mouseMoves points) c = c
  /\ onMouseEvents (MouseUp :: mouseMoves points) c = onMouseUp c
  /\ onMouseEvents (MouseLeave :: mouseMoves points) c = onMouseUp c.
Proof.
  assert (Hidle : forall points c,
             isDragging c = false -> onMouseEvents (mouseMoves points) c = c).
  { clear. induction points as [| [x y] points IH]; intros c Hc; [reflexivity |].
    cbn [mouseMoves map onMouseEvents fold_left onMouseEvent fst snd].
    unfold onMouseMove. rewrite Hc. cbn [negb]. apply IH, Hc. }
  intros Hc. split; [apply Hidle, Hc | split];
    cbn [onMouseEvents fold_left onMouseEvent]; apply Hidle; reflexivity.
Qed.

Lemma moves_without_drag_do_nothing_witness :
  isDragging initialCamera = false
  /\ onMouseEvents (mouseMoves [(10, 20); (300, 40)]) initialCamera
     = initialCamera.
Proof.
  assert (Hc : isDragging initialCamera = false) by reflexivity.
  split; [exact Hc |].
  exact (proj1 (moves_without_drag_do_nothing [(10, 20); (300, 40)]
                  initialCamera Hc)).
Defined.

End CameraFacts.
